(** * ARIADNE'S THREAD: SOCKS5 redirection of [connect]

    A shallow embedding of the three preload wrappers of the repository

    - [1.c]                          (module [One]),
    - [ConnetcInterceptionOnly.c]    (module [InterceptOnly]),
    - [ConnectWithDNSInterception.c] (module [DnsIntercept]),

    each of which overrides [connect], connects the socket to the local
    proxy and runs the SOCKS5 negotiation on it.  The C code talks to the
    operating system through [send], [recv], [close], [dlsym] and the real
    [connect]; here these are primitives of a small state monad over a
    [world] that records every call, and their results come from an [env]
    that is a parameter of every function. *)

From Stdlib Require Import String Strings.Byte.
From Stdlib Require Import ZArith List Lia Bool.
Import ListNotations.
Local Open Scope Z_scope.

(** ** Bytes, integers and the C library *)

Definition Z_of_byte (b : byte) : Z := Z.of_N (Byte.to_N b).

(** Conversion of an integer to [char]: the low eight bits. *)
Definition byte_of_Z (z : Z) : byte :=
  match Byte.of_N (Z.to_N (z mod 256)) with
  | Some b => b
  | None => x00
  end.

(** [size_t] is 64 bits wide; assigning the [ssize_t] result of [recv] to a
    [size_t] variable wraps a negative value around. *)
Definition size_t_of (r : Z) : Z := r mod 2 ^ 64.

(** A 16-bit quantity in network byte order is kept as its two bytes in
    memory order, which does not depend on the host's endianness:
    [htons p] is the memory image of the converted port, [ntohs] reads one
    back. *)
Definition net16 : Type := (byte * byte)%type.

Definition htons (p : Z) : net16 :=
  (byte_of_Z ((p mod 65536) / 256), byte_of_Z (p mod 256)).

Definition ntohs (n : net16) : Z :=
  256 * Z_of_byte (fst n) + Z_of_byte (snd n).

Definition net16_bytes (n : net16) : list byte := [fst n; snd n].

(** [struct in_addr]: the four address bytes in memory (network) order. *)
Definition in_addr : Type := (byte * byte * byte * byte)%type.

Definition in_addr_bytes (a : in_addr) : list byte :=
  let '(a0, a1, a2, a3) := a in [a0; a1; a2; a3].

(** [struct sockaddr] seen through the [sockaddr_in] overlay the wrappers
    cast it to.  For a family other than [AF_INET] the two other fields are
    whatever bytes of [sa_data] lie there. *)
Record sockaddr_in : Type := mkSockaddr {
  sin_family : Z;
  sin_port : net16;
  sin_addr : in_addr
}.

(** Values of the system headers (Linux). *)
Definition AF_UNIX : Z := 1.
Definition AF_INET : Z := 2.
Definition AF_INET6 : Z := 10.
Definition EFAULT : Z := 14.
Definition EAFNOSUPPORT : Z := 97.
Definition EHOSTUNREACH : Z := 113.
Definition NI_MAXHOST : nat := 1025.
Definition sizeof_sockaddr_in : Z := 16.

(** [strlen]: the number of bytes before the first NUL.  A C string is given
    as the bytes found at the pointer; the list's end stands for the
    terminator when no NUL occurs in it. *)
Fixpoint strlen (s : list byte) : nat :=
  match s with
  | [] => O
  | c :: s' => if Byte.eqb c x00 then O else S (strlen s')
  end.

(** [memcmp a b n]: zero when the first [n] bytes agree, otherwise the
    difference of the first pair of bytes that differ. *)
Fixpoint memcmp (a b : list byte) (n : nat) {struct n} : Z :=
  match n, a, b with
  | S n', x :: a', y :: b' =>
      if Byte.eqb x y then memcmp a' b' n' else Z_of_byte x - Z_of_byte y
  | _, _, _ => 0
  end.

(** [buf[i] = v] and [memcpy(buf + off, src, n)] on an array held as the
    list of its bytes. *)
Definition store (buf : list byte) (i : nat) (v : byte) : list byte :=
  firstn i buf ++ v :: skipn (S i) buf.

Definition memcpy (buf : list byte) (off : nat) (src : list byte) (n : nat)
  : list byte :=
  firstn off buf ++ firstn n src ++ skipn (off + n) buf.

(** [inet_ntop(AF_INET, ...)]: dotted decimal text of an address, or [None]
    ([NULL]) when the text and its terminator do not fit in [size] bytes. *)
Definition dec_digit (d : Z) : byte := byte_of_Z (48 + d).

Definition dec_octet (b : byte) : list byte :=
  let v := Z_of_byte b in
  if v <? 10 then [dec_digit v]
  else if v <? 100 then [dec_digit (v / 10); dec_digit (v mod 10)]
  else [dec_digit (v / 100); dec_digit (v / 10 mod 10); dec_digit (v mod 10)].

Definition dot : byte := x2e.

Definition inet_ntop4 (a : in_addr) (size : nat) : option (list byte) :=
  let '(a0, a1, a2, a3) := a in
  let text := dec_octet a0 ++ dot :: dec_octet a1 ++ dot :: dec_octet a2
              ++ dot :: dec_octet a3 in
  if (length text <? size)%nat then Some text else None.

(** [inet_pton(AF_INET, ...)]: four decimal octets separated by dots, none
    above 255 and none with a leading zero. *)
Definition is_digit (c : byte) : bool :=
  (48 <=? Z_of_byte c) && (Z_of_byte c <=? 57).

Fixpoint pton_octets (s : list byte) (cur : option Z) (acc : list byte)
  : option (list byte) :=
  match s with
  | [] =>
      match cur with
      | Some v => Some (acc ++ [byte_of_Z v])
      | None => None
      end
  | c :: s' =>
      if Byte.eqb c dot then
        match cur with
        | Some v => pton_octets s' None (acc ++ [byte_of_Z v])
        | None => None
        end
      else if is_digit c then
        match cur with
        | Some 0 => None
        | Some v =>
            let v' := 10 * v + (Z_of_byte c - 48) in
            if 255 <? v' then None else pton_octets s' (Some v') acc
        | None => pton_octets s' (Some (Z_of_byte c - 48)) acc
        end
      else None
  end.

Definition inet_pton4 (s : string) : option in_addr :=
  match pton_octets (list_byte_of_string s) None [] with
  | Some [a0; a1; a2; a3] => Some (a0, a1, a2, a3)
  | _ => None
  end.

(** ** The operating system as seen by the wrappers *)

(** The messages written to [stderr], with the argument of the format. *)
Inductive diag : Type :=
| NoRealConnect
| NoRealGethostbyname
| HandshakeFailed
| OnlyIPv4
| InvalidHostname
| RequestFailed (reply : byte)
| DomainRequestFailed (reply : byte)
| ProxyUnreachable
| IpToStringFailed.

(** The calls a wrapper makes, in the order it makes them. *)
Inductive event : Type :=
| Connect (fd : Z) (addr : sockaddr_in) (addrlen : Z)
| Send (fd : Z) (data : list byte)
| Recv (fd : Z) (len : nat)
| Close (fd : Z)
| Gethostbyname (name : list byte)
| Stderr (d : diag).

(** Result of a system call: a non-negative value, or [-1] with an error
    number stored in [errno]. *)
Inductive sysret : Type :=
| SysOk (v : N)
| SysErr (e : Z).

(** Result of [recv]: an error, or the bytes the peer delivers (the call
    takes at most as many as it asked for; none means end of stream). *)
Inductive recv_outcome : Type :=
| RecvErr (e : Z)
| RecvData (data : list byte).

Record hostent : Type := mkHostent {
  h_name : list byte;
  h_addr_list : list in_addr
}.

(** The environment: what the dynamic linker, the kernel and the peer
    answer.  The [k]-th call of each kind gets the [k]-th outcome. *)
Record env : Type := mkEnv {
  dlsym_next : string -> bool;
  connect_out : nat -> sysret;
  send_out : nat -> sysret;
  recv_out : nat -> recv_outcome;
  resolver : list byte -> option hostent;
  stack_garbage : nat -> byte
}.

(** The process state the wrappers read and write. *)
Record world : Type := mkWorld {
  real_connect : bool;
  real_gethostbyname : bool;
  errno : Z;
  trace : list event;
  n_connect : nat;
  n_send : nat;
  n_recv : nat
}.

Definition set_real_connect (b : bool) (w : world) : world :=
  mkWorld b (real_gethostbyname w) (errno w) (trace w)
          (n_connect w) (n_send w) (n_recv w).

Definition set_real_gethostbyname (b : bool) (w : world) : world :=
  mkWorld (real_connect w) b (errno w) (trace w)
          (n_connect w) (n_send w) (n_recv w).

Definition set_errno (e : Z) (w : world) : world :=
  mkWorld (real_connect w) (real_gethostbyname w) e (trace w)
          (n_connect w) (n_send w) (n_recv w).

Definition record (ev : event) (w : world) : world :=
  mkWorld (real_connect w) (real_gethostbyname w) (errno w) (trace w ++ [ev])
          (n_connect w) (n_send w) (n_recv w).

Definition next_connect (w : world) : world :=
  mkWorld (real_connect w) (real_gethostbyname w) (errno w) (trace w)
          (S (n_connect w)) (n_send w) (n_recv w).

Definition next_send (w : world) : world :=
  mkWorld (real_connect w) (real_gethostbyname w) (errno w) (trace w)
          (n_connect w) (S (n_send w)) (n_recv w).

Definition next_recv (w : world) : world :=
  mkWorld (real_connect w) (real_gethostbyname w) (errno w) (trace w)
          (n_connect w) (n_send w) (S (n_recv w)).

(** ** The monad of the wrappers *)

Definition M (A : Type) : Type := world -> A * world.

Definition ret {A : Type} (a : A) : M A := fun w => (a, w).

Definition bind {A B : Type} (m : M A) (k : A -> M B) : M B :=
  fun w => let (a, w') := m w in k a w'.

Declare Scope wrapper_scope.
Delimit Scope wrapper_scope with wrapper.
Notation "x <- c1 ;; c2" := (bind c1 (fun x => c2))
  (at level 61, c1 at next level, right associativity) : wrapper_scope.
Notation "' pat <- c1 ;; c2" :=
  (bind c1 (fun x => match x with pat => c2 end))
  (at level 61, pat pattern, c1 at next level, right associativity)
  : wrapper_scope.
Notation "e1 ;; e2" := (bind e1 (fun _ => e2))
  (at level 61, right associativity) : wrapper_scope.
Local Open Scope wrapper_scope.

Definition sys_result (o : sysret) : M Z :=
  fun w =>
    match o with
    | SysOk v => (Z.of_N v, w)
    | SysErr e => (-1, set_errno e w)
    end.

Definition assign_errno (e : Z) : M unit := fun w => (tt, set_errno e w).

Definition fprintf_stderr (d : diag) : M unit :=
  fun w => (tt, record (Stderr d) w).

(** [close]: its result is discarded by every caller, and each of them
    assigns [errno] right after the call. *)
Definition close (fd : Z) : M unit := fun w => (tt, record (Close fd) w).

Definition real_connect_set : M bool := fun w => (real_connect w, w).

Definition real_gethostbyname_set : M bool :=
  fun w => (real_gethostbyname w, w).

Section Primitives.

Variable E : env.

(** The automatic array [char buffer[n]]: indeterminate at first. *)
Definition auto_array (n : nat) : list byte :=
  map (stack_garbage E) (seq 0 n).

(** A call through the [real_connect] pointer. *)
Definition call_real_connect (fd : Z) (addr : sockaddr_in) (addrlen : Z)
  : M Z :=
  fun w =>
    sys_result (connect_out E (n_connect w))
               (next_connect (record (Connect fd addr addrlen) w)).

(** [send(fd, buf, len, 0)] *)
Definition send (fd : Z) (buf : list byte) (len : nat) : M Z :=
  fun w =>
    sys_result (send_out E (n_send w))
               (next_send (record (Send fd (firstn len buf)) w)).

(** [recv(fd, buf, len, 0)]: the result and the array after the call. *)
Definition recv (fd : Z) (buf : list byte) (len : nat)
  : M (Z * list byte) :=
  fun w =>
    let w' := next_recv (record (Recv fd len) w) in
    match recv_out E (n_recv w) with
    | RecvErr e => ((-1, buf), set_errno e w')
    | RecvData data =>
        let got := firstn len data in
        ((Z.of_nat (length got), memcpy buf 0 got (length got)), w')
    end.

(** A call through the [real_gethostbyname] pointer. *)
Definition call_real_gethostbyname (name : list byte)
  : M (option hostent) :=
  fun w => (resolver E name, record (Gethostbyname name) w).

End Primitives.

(** ** Constants shared by the three files *)

Definition TOR_SOCKS_ADDR : string := "127.0.0.1".
Definition TOR_SOCKS_PORT : Z := 9050.
Definition SOCKS_CMD_CONNECT : byte := x01.
Definition SOCKS_ATYP_IPV4 : byte := x01.
Definition SOCKS_ATYP_DOMAINNAME : byte := x03.
Definition SOCKS_VERSION : byte := x05.
Definition SOCKS_REPLY_SUCCESS : byte := x00.

Definition socks5_initial_handshake : list byte := [x05; x01; x00].
Definition socks5_handshake_success : list byte := [x05; x00].

(** [memset(&tor_addr, 0, ...)], then the three assignments. *)
Definition tor_addr : sockaddr_in :=
  mkSockaddr AF_INET (htons TOR_SOCKS_PORT)
             (match inet_pton4 TOR_SOCKS_ADDR with
              | Some a => a
              | None => (x00, x00, x00, x00)
              end).

(** The method negotiation, lines 50-58 of [ConnetcInterceptionOnly.c];
    [1.c] (lines 75-85) and [ConnectWithDNSInterception.c] (lines 63-71)
    have the same statements.  It yields the array as the reply left it
    when the negotiation goes on, and nothing when the function returns
    [-1] from here. *)
Definition handshake (E : env) (sockfd : Z) : M (option (list byte)) :=
  let buffer := auto_array E 256 in
  r <- send E sockfd socks5_initial_handshake 3 ;;
  if r <? 0 then ret None else
  '(r, buffer) <- recv E sockfd buffer 2 ;;
  let bytes_read := size_t_of r in
  if negb (bytes_read =? 2)
     || negb (memcmp buffer socks5_handshake_success 2 =? 0)
  then fprintf_stderr HandshakeFailed ;; ret None
  else ret (Some buffer).

(** ** [ConnetcInterceptionOnly.c] *)

Module InterceptOnly.
Section WithEnv.

Variable E : env.

Definition init_dlsym : M unit :=
  fun w =>
    let found := dlsym_next E "connect" in
    let w' := set_real_connect found w in
    if negb found then fprintf_stderr NoRealConnect w' else (tt, w').

Definition perform_socks5_negotiation (sockfd : Z)
           (target_addr : sockaddr_in) : M Z :=
  let buffer := auto_array E 256 in
  (* 1. Initial Handshake *)
  r <- send E sockfd socks5_initial_handshake 3 ;;
  if r <? 0 then ret (-1) else
  '(r, buffer) <- recv E sockfd buffer 2 ;;
  let bytes_read := size_t_of r in
  if negb (bytes_read =? 2)
     || negb (memcmp buffer socks5_handshake_success 2 =? 0)
  then fprintf_stderr HandshakeFailed ;; ret (-1) else
  (* 2. Command Request *)
  if negb (sin_family target_addr =? AF_INET)
  then fprintf_stderr OnlyIPv4 ;; ret (-1) else
  let buffer := store buffer 0 SOCKS_VERSION in
  let buffer := store buffer 1 SOCKS_CMD_CONNECT in
  let buffer := store buffer 2 x00 in
  let buffer := store buffer 3 SOCKS_ATYP_IPV4 in
  let buffer := memcpy buffer 4 (in_addr_bytes (sin_addr target_addr)) 4 in
  let buffer := memcpy buffer 8 (net16_bytes (sin_port target_addr)) 2 in
  r <- send E sockfd buffer 10 ;;
  if r <? 0 then ret (-1) else
  (* 3. Receive final SOCKS reply *)
  '(r, buffer) <- recv E sockfd buffer 10 ;;
  let bytes_read := size_t_of r in
  if (bytes_read <? 0)
     || negb (Byte.eqb (nth 1 buffer x00) SOCKS_REPLY_SUCCESS)
  then fprintf_stderr (RequestFailed (nth 1 buffer x00)) ;; ret (-1)
  else ret 0.

(** What [perform_socks5_negotiation] does after the handshake
    (lines 60-85), from the array the handshake left. *)
Definition connect_request (sockfd : Z) (target_addr : sockaddr_in)
           (buffer : list byte) : M Z :=
  if negb (sin_family target_addr =? AF_INET)
  then fprintf_stderr OnlyIPv4 ;; ret (-1) else
  let buffer := store buffer 0 SOCKS_VERSION in
  let buffer := store buffer 1 SOCKS_CMD_CONNECT in
  let buffer := store buffer 2 x00 in
  let buffer := store buffer 3 SOCKS_ATYP_IPV4 in
  let buffer := memcpy buffer 4 (in_addr_bytes (sin_addr target_addr)) 4 in
  let buffer := memcpy buffer 8 (net16_bytes (sin_port target_addr)) 2 in
  r <- send E sockfd buffer 10 ;;
  if r <? 0 then ret (-1) else
  '(r, buffer) <- recv E sockfd buffer 10 ;;
  let bytes_read := size_t_of r in
  if (bytes_read <? 0)
     || negb (Byte.eqb (nth 1 buffer x00) SOCKS_REPLY_SUCCESS)
  then fprintf_stderr (RequestFailed (nth 1 buffer x00)) ;; ret (-1)
  else ret 0.

Definition connect (sockfd : Z) (addr : sockaddr_in) (addrlen : Z)
  : M Z :=
  have <- real_connect_set ;;
  have <- (if negb have then init_dlsym ;; real_connect_set
           else ret have) ;;
  if negb have then assign_errno EFAULT ;; ret (-1) else
  (* Passthrough for non-IPv4 addresses *)
  if negb (sin_family addr =? AF_INET)
  then call_real_connect E sockfd addr addrlen else
  let target_addr_in := addr in
  connect_result <- call_real_connect E sockfd tor_addr
                                      sizeof_sockaddr_in ;;
  if connect_result <? 0
  then fprintf_stderr ProxyUnreachable ;; ret (-1) else
  r <- perform_socks5_negotiation sockfd target_addr_in ;;
  if r <? 0
  then close sockfd ;; assign_errno EHOSTUNREACH ;; ret (-1)
  else ret 0.

End WithEnv.
End InterceptOnly.

(** ** [1.c] *)

Module One.
Section WithEnv.

Variable E : env.

Definition init_dlsym : M unit :=
  fun w =>
    let found := dlsym_next E "connect" in
    let w' := set_real_connect found w in
    if negb found then fprintf_stderr NoRealConnect w' else (tt, w').

Definition perform_socks5_negotiation (sockfd : Z)
           (target_addr : sockaddr_in) : M Z :=
  let buffer := auto_array E 256 in
  (* 1. Initial Handshake: send version and the no-auth method *)
  r <- send E sockfd socks5_initial_handshake 3 ;;
  if r <? 0 then ret (-1) else
  (* 2. Initial Handshake: receive proxy reply *)
  '(r, buffer) <- recv E sockfd buffer 2 ;;
  let bytes_read := size_t_of r in
  if negb (bytes_read =? 2)
     || negb (memcmp buffer socks5_handshake_success 2 =? 0)
  then fprintf_stderr HandshakeFailed ;; ret (-1) else
  (* 3. Command Request *)
  if negb (sin_family target_addr =? AF_INET)
  then fprintf_stderr OnlyIPv4 ;; ret (-1) else
  let buffer := store buffer 0 SOCKS_VERSION in
  let buffer := store buffer 1 SOCKS_CMD_CONNECT in
  let buffer := store buffer 2 x00 in
  let buffer := store buffer 3 x01 in
  let buffer := memcpy buffer 4 (in_addr_bytes (sin_addr target_addr)) 4 in
  let buffer := memcpy buffer 8 (net16_bytes (sin_port target_addr)) 2 in
  r <- send E sockfd buffer 10 ;;
  if r <? 0 then ret (-1) else
  (* 4. Receive final SOCKS reply *)
  '(r, buffer) <- recv E sockfd buffer 10 ;;
  let bytes_read := size_t_of r in
  if (bytes_read <? 0)
     || negb (Byte.eqb (nth 1 buffer x00) SOCKS_REPLY_SUCCESS)
  then fprintf_stderr (RequestFailed (nth 1 buffer x00)) ;; ret (-1)
  else ret 0.

(** What [perform_socks5_negotiation] does after the handshake
    (lines 86-111), from the array the handshake left. *)
Definition connect_request (sockfd : Z) (target_addr : sockaddr_in)
           (buffer : list byte) : M Z :=
  if negb (sin_family target_addr =? AF_INET)
  then fprintf_stderr OnlyIPv4 ;; ret (-1) else
  let buffer := store buffer 0 SOCKS_VERSION in
  let buffer := store buffer 1 SOCKS_CMD_CONNECT in
  let buffer := store buffer 2 x00 in
  let buffer := store buffer 3 x01 in
  let buffer := memcpy buffer 4 (in_addr_bytes (sin_addr target_addr)) 4 in
  let buffer := memcpy buffer 8 (net16_bytes (sin_port target_addr)) 2 in
  r <- send E sockfd buffer 10 ;;
  if r <? 0 then ret (-1) else
  '(r, buffer) <- recv E sockfd buffer 10 ;;
  let bytes_read := size_t_of r in
  if (bytes_read <? 0)
     || negb (Byte.eqb (nth 1 buffer x00) SOCKS_REPLY_SUCCESS)
  then fprintf_stderr (RequestFailed (nth 1 buffer x00)) ;; ret (-1)
  else ret 0.

Definition connect (sockfd : Z) (addr : sockaddr_in) (addrlen : Z)
  : M Z :=
  (* 1. Check if the function pointer is initialized *)
  have <- real_connect_set ;;
  have <- (if negb have then init_dlsym ;; real_connect_set
           else ret have) ;;
  if negb have then assign_errno EFAULT ;; ret (-1) else
  (* 3. Save the intended target address *)
  if negb (sin_family addr =? AF_INET)
  then assign_errno EAFNOSUPPORT ;; ret (-1) else
  let target_addr_in := addr in
  (* 4. Connect the socket to the local proxy *)
  connect_result <- call_real_connect E sockfd tor_addr
                                      sizeof_sockaddr_in ;;
  if connect_result <? 0
  then fprintf_stderr ProxyUnreachable ;; ret (-1) else
  (* 5. Perform the handshake and connection request *)
  r <- perform_socks5_negotiation sockfd target_addr_in ;;
  if r <? 0
  then close sockfd ;; assign_errno EHOSTUNREACH ;; ret (-1)
  else ret 0.

End WithEnv.
End One.

(** ** [ConnectWithDNSInterception.c] *)

Module DnsIntercept.
Section WithEnv.

Variable E : env.

Definition init_dlsym : M unit :=
  fun w =>
    let found := dlsym_next E "connect" in
    let w1 := set_real_connect found w in
    let w2 := if negb found then record (Stderr NoRealConnect) w1 else w1 in
    let found' := dlsym_next E "gethostbyname" in
    let w3 := set_real_gethostbyname found' w2 in
    if negb found' then fprintf_stderr NoRealGethostbyname w3 else (tt, w3).

Definition perform_socks5_domain_negotiation (sockfd : Z)
           (hostname : list byte) (port : Z) : M Z :=
  let buffer := auto_array E 256 in
  let hostname_len := strlen hostname in
  (* 1. Initial Handshake *)
  r <- send E sockfd socks5_initial_handshake 3 ;;
  if r <? 0 then ret (-1) else
  '(r, buffer) <- recv E sockfd buffer 2 ;;
  let bytes_read := size_t_of r in
  if negb (bytes_read =? 2)
     || negb (memcmp buffer socks5_handshake_success 2 =? 0)
  then fprintf_stderr HandshakeFailed ;; ret (-1) else
  (* 2. Command Request *)
  if (hostname_len =? 0)%nat || (255 - 7 <? hostname_len)%nat
  then fprintf_stderr InvalidHostname ;; ret (-1) else
  let buffer := store buffer 0 SOCKS_VERSION in
  let buffer := store buffer 1 SOCKS_CMD_CONNECT in
  let buffer := store buffer 2 x00 in
  let buffer := store buffer 3 SOCKS_ATYP_DOMAINNAME in
  let buffer := store buffer 4 (byte_of_Z (Z.of_nat hostname_len)) in
  let buffer := memcpy buffer 5 hostname hostname_len in
  let net_port := htons port in
  let buffer := memcpy buffer (5 + hostname_len) (net16_bytes net_port) 2 in
  let request_len := (5 + hostname_len + 2)%nat in
  r <- send E sockfd buffer request_len ;;
  if r <? 0 then ret (-1) else
  (* 3. Receive final SOCKS reply *)
  '(r, buffer) <- recv E sockfd buffer 10 ;;
  let bytes_read := size_t_of r in
  if (bytes_read <? 0)
     || negb (Byte.eqb (nth 1 buffer x00) SOCKS_REPLY_SUCCESS)
  then fprintf_stderr (DomainRequestFailed (nth 1 buffer x00)) ;; ret (-1)
  else ret 0.

(** What [perform_socks5_domain_negotiation] does after the handshake
    (lines 73-104), from the array the handshake left. *)
Definition domain_connect_request (sockfd : Z) (hostname : list byte)
           (port : Z) (buffer : list byte) : M Z :=
  let hostname_len := strlen hostname in
  if (hostname_len =? 0)%nat || (255 - 7 <? hostname_len)%nat
  then fprintf_stderr InvalidHostname ;; ret (-1) else
  let buffer := store buffer 0 SOCKS_VERSION in
  let buffer := store buffer 1 SOCKS_CMD_CONNECT in
  let buffer := store buffer 2 x00 in
  let buffer := store buffer 3 SOCKS_ATYP_DOMAINNAME in
  let buffer := store buffer 4 (byte_of_Z (Z.of_nat hostname_len)) in
  let buffer := memcpy buffer 5 hostname hostname_len in
  let net_port := htons port in
  let buffer := memcpy buffer (5 + hostname_len) (net16_bytes net_port) 2 in
  let request_len := (5 + hostname_len + 2)%nat in
  r <- send E sockfd buffer request_len ;;
  if r <? 0 then ret (-1) else
  '(r, buffer) <- recv E sockfd buffer 10 ;;
  let bytes_read := size_t_of r in
  if (bytes_read <? 0)
     || negb (Byte.eqb (nth 1 buffer x00) SOCKS_REPLY_SUCCESS)
  then fprintf_stderr (DomainRequestFailed (nth 1 buffer x00)) ;; ret (-1)
  else ret 0.

Definition gethostbyname (name : list byte) : M (option hostent) :=
  have <- real_gethostbyname_set ;;
  (if negb have then init_dlsym else ret tt) ;;
  have <- real_gethostbyname_set ;;
  if have then call_real_gethostbyname E name else ret None.

Definition connect (sockfd : Z) (addr : sockaddr_in) (addrlen : Z)
  : M Z :=
  have <- real_connect_set ;;
  have <- (if negb have then init_dlsym ;; real_connect_set
           else ret have) ;;
  if negb have then assign_errno EFAULT ;; ret (-1) else
  (* Passthrough for non-IPv4 addresses *)
  if negb (sin_family addr =? AF_INET)
  then call_real_connect E sockfd addr addrlen else
  let target_addr_in := addr in
  connect_result <- call_real_connect E sockfd tor_addr
                                      sizeof_sockaddr_in ;;
  if connect_result <? 0
  then fprintf_stderr ProxyUnreachable ;; ret (-1) else
  match inet_ntop4 (sin_addr target_addr_in) NI_MAXHOST with
  | None =>
      fprintf_stderr IpToStringFailed ;;
      close sockfd ;; assign_errno EFAULT ;; ret (-1)
  | Some hostname_buffer =>
      r <- perform_socks5_domain_negotiation
             sockfd hostname_buffer (ntohs (sin_port target_addr_in)) ;;
      if r <? 0
      then close sockfd ;; assign_errno EHOSTUNREACH ;; ret (-1)
      else ret 0
  end.

End WithEnv.
End DnsIntercept.

(** ** What the environment lets happen *)

(** The real [connect] is there: the pointer is set, or [dlsym] finds it. *)
Definition available (E : env) (w : world) : bool :=
  real_connect w || dlsym_next E "connect".

Definition sys_ok (o : sysret) : bool :=
  match o with
  | SysOk _ => true
  | SysErr _ => false
  end.

(** The handshake message is taken and the read that follows delivers two
    bytes, 05 00. *)
Definition handshake_accepted (E : env) (w : world) : bool :=
  match send_out E (n_send w), recv_out E (n_recv w) with
  | SysOk _, RecvData (b0 :: b1 :: _) => Byte.eqb b0 x05 && Byte.eqb b1 x00
  | _, _ => false
  end.

(** The reply code: the second byte of what the read of the reply delivers,
    if it delivers that much. *)
Definition reply_code (E : env) (w : world) : option byte :=
  match recv_out E (S (n_recv w)) with
  | RecvData (_ :: c :: _) => Some c
  | _ => None
  end.

(** The byte found at [buffer[1]] after the reply was read into the array
    that held the request: the delivered reply code, or else the command
    byte of the request, which a short or failed read leaves there. *)
Definition byte_tested (o : recv_outcome) : byte :=
  match o with
  | RecvData (_ :: c :: _) => c
  | _ => SOCKS_CMD_CONNECT
  end.

Definition tested_byte (E : env) (w : world) : byte :=
  byte_tested (recv_out E (S (n_recv w))).

(** Handshake accepted, request taken, and a zero at [buffer[1]]. *)
Definition negotiation_succeeds (E : env) (w : world) : bool :=
  handshake_accepted E w
  && sys_ok (send_out E (S (n_send w)))
  && Byte.eqb (tested_byte E w) x00.

(** The length test of [perform_socks5_domain_negotiation]. *)
Definition hostname_accepted (hostname : list byte) : bool :=
  negb ((strlen hostname =? 0)%nat || (248 <? strlen hostname)%nat).

(** ** Worlds along a run *)

(** The world once [connect] has found the pointer set or has set it. *)
Definition resolved (w : world) : world :=
  if real_connect w then w else set_real_connect true w.

(** The same in [ConnectWithDNSInterception.c], where the lookup also sets
    the pointer to the real [gethostbyname], or reports that it is missing. *)
Definition resolved_dns (E : env) (w : world) : world :=
  if real_connect w then w else snd (DnsIntercept.init_dlsym E w).

(** The world after the call that connects the socket to the proxy. *)
Definition proxy_called (fd : Z) (w : world) : world :=
  next_connect (record (Connect fd tor_addr sizeof_sockaddr_in) w).

(** The world after a call of [send] or [recv], its result apart. *)
Definition after_send (fd : Z) (data : list byte) (w : world) : world :=
  next_send (record (Send fd data) w).

Definition after_recv (fd : Z) (len : nat) (w : world) : world :=
  next_recv (record (Recv fd len) w).

(** What the three [connect] do with the result of the negotiation. *)
Definition conclude (fd : Z) (res : Z * world) : Z * world :=
  let (r, w') := res in
  if r <? 0 then (-1, set_errno EHOSTUNREACH (record (Close fd) w'))
  else (0, w').

(** What the caller of [connect] gets to see: the result and [errno]. *)
Definition caller_view (out : Z * world) : Z * Z :=
  (fst out, errno (snd out)).

(** ** Requests and traces *)

(** The request of the literal form, as it goes on the wire. *)
Definition literal_request (target : sockaddr_in) : list byte :=
  [x05; x01; x00; x01] ++ in_addr_bytes (sin_addr target)
  ++ net16_bytes (sin_port target).

(** The request of the name form. *)
Definition name_request (hostname : list byte) (port : Z) : list byte :=
  [x05; x01; x00; x03; byte_of_Z (Z.of_nat (strlen hostname))]
  ++ firstn (strlen hostname) hostname ++ net16_bytes (htons port).

(** The sizes asked of [recv], in order. *)
Fixpoint recv_sizes (evs : list event) : list nat :=
  match evs with
  | [] => []
  | Recv _ n :: evs' => n :: recv_sizes evs'
  | _ :: evs' => recv_sizes evs'
  end.

(** The bytes asked of [recv] for the reply: every read after the one of
    the handshake. *)
Definition reply_bytes_asked (evs : list event) : nat :=
  list_sum (skipn 1 (recv_sizes evs)).

(** What follows the read of the reply: nothing, or the message that names
    the byte tested. *)
Definition reply_tail (msg : byte -> diag) (c : byte) : list event :=
  if Byte.eqb c x00 then [] else [Stderr (msg c)].

(** The events of a negotiation that fails, after the handshake message. *)
Definition failure_events (fd : Z) (req : list byte) (msg : diag)
           (evs : list event) : Prop :=
  evs = []
  \/ evs = [Recv fd 2; Stderr HandshakeFailed]
  \/ evs = [Recv fd 2; Send fd req]
  \/ evs = [Recv fd 2; Send fd req; Recv fd 10; Stderr msg].

Definition sockaddr_eqb (a b : sockaddr_in) : bool :=
  (sin_family a =? sin_family b)
  && (memcmp (net16_bytes (sin_port a)) (net16_bytes (sin_port b)) 2 =? 0)
  && (memcmp (in_addr_bytes (sin_addr a)) (in_addr_bytes (sin_addr b)) 4 =? 0).

(** Traffic with the proxy: something sent, something received, or a
    connection to the proxy's address. *)
Definition is_proxy_traffic (ev : event) : bool :=
  match ev with
  | Send _ _ | Recv _ _ => true
  | Connect _ a _ => sockaddr_eqb a tor_addr
  | _ => false
  end.

Definition is_close (fd : Z) (ev : event) : bool :=
  match ev with
  | Close fd' => fd' =? fd
  | _ => false
  end.

(** ** The reply as the specification describes it *)

(** The length section 4.3 of the specification gives to the bound address
    of a reply, by the address type in its fourth byte: 4 bytes for IPv4,
    1+N for a name, 16 for IPv6. *)
Definition spec_bound_address_length (reply : list byte) : option nat :=
  match reply with
  | _ :: _ :: _ :: atyp :: rest =>
      if Byte.eqb atyp x01 then Some 4%nat
      else if Byte.eqb atyp x03 then
        match rest with
        | n :: _ => Some (1 + Byte.to_nat n)%nat
        | [] => None
        end
      else if Byte.eqb atyp x04 then Some 16%nat
      else None
  | _ => None
  end.

(** The whole reply: four bytes of header, the bound address, the port. *)
Definition spec_reply_length (reply : list byte) : option nat :=
  option_map (fun n => (4 + n + 2)%nat) (spec_bound_address_length reply).

(** ** Scripted environments for concrete runs *)

Definition ECONNREFUSED : Z := 111.
Definition ECONNRESET : Z := 104.

(** Everything succeeds; the first read delivers [hs], the second [reply],
    later ones nothing more. *)
Definition mock_proxy (hs reply : recv_outcome) : env :=
  mkEnv (fun _ => true)
        (fun _ => SysOk 0)
        (fun _ => SysOk 3)
        (fun k => match k with O => hs | 1%nat => reply | _ => RecvData [] end)
        (fun _ => None)
        (fun _ => xaa).

(** The proxy's port is closed. *)
Definition no_proxy : env :=
  mkEnv (fun _ => true)
        (fun _ => SysErr ECONNREFUSED)
        (fun _ => SysOk 0)
        (fun _ => RecvData [])
        (fun _ => None)
        (fun _ => xaa).

(** The proxy of scenario A of the specification. *)
Definition scenario_A : env :=
  mock_proxy (RecvData [x05; x00])
             (RecvData [x05; x00; x00; x01; x00; x00; x00; x00; x00; x00]).

(** A proxy that answers the request with reply code [c]. *)
Definition reply_with_code (c : byte) : env :=
  mock_proxy (RecvData [x05; x00])
             (RecvData [x05; c; x00; x01; x00; x00; x00; x00; x00; x00]).

(** Reply code 5: connection refused. *)
Definition refusing_proxy : env := reply_with_code x05.

(** The read of the reply delivers two bytes only. *)
Definition short_reply_proxy : env :=
  mock_proxy (RecvData [x05; x00]) (RecvData [x05; x00]).

(** The read of the reply fails. *)
Definition reset_proxy : env :=
  mock_proxy (RecvData [x05; x00]) (RecvErr ECONNRESET).

(** Replies whose bound address is an IPv6 address, and a name. *)
Definition ipv6_bound_reply : list byte :=
  [x05; x00; x00; x04] ++ repeat x00 16 ++ [x1f; x90].

Definition name_bound_reply : list byte :=
  [x05; x00; x00; x03; x0b] ++ list_byte_of_string "example.com"
  ++ [x00; x50].

Definition example_com : list byte := list_byte_of_string "example.com".

(** A proxy that accepts everything, and a resolver that answers every
    name with the address 93.184.216.34. *)
Definition resolving_world : env :=
  mkEnv (fun _ => true)
        (fun _ => SysOk 0)
        (fun _ => SysOk 3)
        (fun k => match k with
                  | O => RecvData [x05; x00]
                  | _ => RecvData [x05; x00; x00; x01;
                                   x00; x00; x00; x00; x00; x00]
                  end)
        (fun name => Some (mkHostent name [(x5d, xb8, xd8, x22)]))
        (fun _ => xaa).

(** A process in which the constructor has run. *)
Definition started : world := mkWorld true true 0 [] 0 0 0.

(** A process in which no symbol lookup has succeeded yet. *)
Definition unloaded : world := mkWorld false false 0 [] 0 0 0.

Definition target_1_2_3_4_443 : sockaddr_in :=
  mkSockaddr AF_INET (htons 443) (x01, x02, x03, x04).

Definition address_93_184_216_34_80 : sockaddr_in :=
  mkSockaddr AF_INET (htons 80) (x5d, xb8, xd8, x22).

(** A unix-domain address, seen through the overlay. *)
Definition unix_socket_address : sockaddr_in :=
  mkSockaddr AF_UNIX (x2f, x74) (x6d, x70, x2f, x73).

(** ** Notions for the further properties *)

(** The request as lines 80-89 of [ConnectWithDNSInterception.c] write it
    into the array, for a name that passed the length test. *)
Definition domain_request_buffer (buffer hostname : list byte) (port : Z)
  : list byte :=
  let hostname_len := strlen hostname in
  let buffer := store buffer 0 SOCKS_VERSION in
  let buffer := store buffer 1 SOCKS_CMD_CONNECT in
  let buffer := store buffer 2 x00 in
  let buffer := store buffer 3 SOCKS_ATYP_DOMAINNAME in
  let buffer := store buffer 4 (byte_of_Z (Z.of_nat hostname_len)) in
  let buffer := memcpy buffer 5 hostname hostname_len in
  let net_port := htons port in
  memcpy buffer (5 + hostname_len) (net16_bytes net_port) 2.

(** A call on descriptor [fd], or a message on [stderr]. *)
Definition concerns (fd : Z) (ev : event) : bool :=
  match ev with
  | Connect fd' _ _ | Send fd' _ | Recv fd' _ | Close fd' => fd' =? fd
  | Gethostbyname _ => false
  | Stderr _ => true
  end.

Definition is_connect (ev : event) : bool :=
  match ev with Connect _ _ _ => true | _ => false end.

Definition is_send (ev : event) : bool :=
  match ev with Send _ _ => true | _ => false end.

Definition is_recv (ev : event) : bool :=
  match ev with Recv _ _ => true | _ => false end.

Definition count (p : event -> bool) (evs : list event) : nat :=
  length (filter p evs).

(** The messages of the branches that [connect] cannot reach: the family
    test of the negotiation, the length test of the name, the failure of
    [inet_ntop]. *)
Definition is_unreachable_message (ev : event) : bool :=
  match ev with
  | Stderr OnlyIPv4 | Stderr InvalidHostname | Stderr IpToStringFailed => true
  | _ => false
  end.

(** What one call of [connect] may add to the trace. *)
Definition within_budget (fd : Z) (evs : list event) : bool :=
  forallb (concerns fd) evs
  && (count is_connect evs <=? 1)%nat
  && (count is_send evs <=? 2)%nat
  && (count is_recv evs <=? 2)%nat
  && (count (is_close fd) evs <=? 1)%nat
  && negb (existsb is_unreachable_message evs).

(** The shapes of what [connect] adds to the trace: [pre] is what the
    lookup printed, [direct] the call handed to the real [connect] for
    another family (none in [1.c]). *)
Definition connect_shape (fd : Z) (direct : list event) (req : list byte)
           (msg : diag) (evs : list event) : Prop :=
  exists pre,
    (pre = [] \/ pre = [Stderr NoRealGethostbyname])
    /\ (evs = Stderr NoRealConnect :: pre
        \/ evs = pre ++ direct
        \/ evs = pre ++ [Connect fd tor_addr sizeof_sockaddr_in;
                         Stderr ProxyUnreachable]
        \/ evs = pre ++ [Connect fd tor_addr sizeof_sockaddr_in;
                         Send fd socks5_initial_handshake; Recv fd 2;
                         Send fd req; Recv fd 10]
        \/ exists fevs,
            failure_events fd req msg fevs
            /\ evs = pre ++ Connect fd tor_addr sizeof_sockaddr_in
                         :: Send fd socks5_initial_handshake
                         :: fevs ++ [Close fd]).


Definition is_resolver_call (ev : event) : bool :=
  match ev with Gethostbyname _ => true | _ => false end.

(** The handshake goes through, then [send] fails with [EPIPE]. *)
Definition broken_pipe_proxy : env :=
  mkEnv (fun _ => true)
        (fun _ => SysOk 0)
        (fun k => match k with O => SysOk 3 | _ => SysErr 32 end)
        (fun _ => RecvData [x05; x00])
        (fun _ => None)
        (fun _ => xaa).

(** An environment in which [dlsym] finds nothing. *)
Definition nothing_found : env :=
  mkEnv (fun _ => false)
        (fun _ => SysOk 0)
        (fun _ => SysOk 3)
        (fun _ => RecvData [])
        (fun _ => None)
        (fun _ => xaa).

(** A proxy behind a socket whose [send] reports that no byte was taken. *)
Definition zero_send_proxy : env :=
  mkEnv (fun _ => true)
        (fun _ => SysOk 0)
        (fun _ => SysOk 0)
        (fun k => match k with
                  | O => RecvData [x05; x00]
                  | _ => RecvData [x05; x00; x00; x01;
                                   x00; x00; x00; x00; x00; x00]
                  end)
        (fun _ => None)
        (fun _ => xaa).

(** * Properties *)

(** ** Integers and arrays *)

Lemma size_t_of_not_negative (r : Z) : (size_t_of r <? 0) = false.
Proof.
  unfold size_t_of. apply Z.ltb_ge.
  apply Z.mod_pos_bound. reflexivity.
Qed.

Lemma sys_ok_not_negative (v : N) : (Z.of_N v <? 0) = false.
Proof. apply Z.ltb_ge. apply N2Z.is_nonneg. Qed.

Lemma length_auto_array (E : env) (n : nat) : length (auto_array E n) = n.
Proof. unfold auto_array. rewrite length_map, length_seq. reflexivity. Qed.

Lemma byte_eqb_eq (a b : byte) : Byte.eqb a b = true <-> a = b.
Proof.
  split; [apply Byte.byte_dec_bl | apply Byte.byte_dec_lb].
Qed.

Lemma byte_eqb_refl (a : byte) : Byte.eqb a a = true.
Proof. apply Byte.byte_dec_lb. reflexivity. Qed.

Lemma byte_eqb_neq (a b : byte) : Byte.eqb a b = false <-> a <> b.
Proof.
  split.
  - apply Byte.eqb_false.
  - intros H. destruct (Byte.eqb a b) eqn:Hab; [|reflexivity].
    apply byte_eqb_eq in Hab. contradiction.
Qed.

Lemma Z_of_byte_inj (a b : byte) : Z_of_byte a = Z_of_byte b -> a = b.
Proof.
  unfold Z_of_byte. intros H. apply N2Z.inj in H.
  pose proof (Byte.of_to_N a) as Ha. rewrite H in Ha.
  rewrite Byte.of_to_N in Ha. congruence.
Qed.

Lemma memcmp_handshake_reply (b0 b1 : byte) (rest : list byte) :
  (memcmp (b0 :: b1 :: rest) socks5_handshake_success 2 =? 0)
  = Byte.eqb b0 x05 && Byte.eqb b1 x00.
Proof.
  unfold socks5_handshake_success. cbn [memcmp].
  destruct (Byte.eqb b0 x05) eqn:H0.
  - destruct (Byte.eqb b1 x00) eqn:H1; [reflexivity|].
    apply Z.eqb_neq. intros Hz. apply byte_eqb_neq in H1. apply H1.
    apply Z_of_byte_inj. lia.
  - apply Z.eqb_neq. intros Hz. apply byte_eqb_neq in H0. apply H0.
    apply Z_of_byte_inj. lia.
Qed.

(** ** The handshake, case by case *)

Lemma handshake_run (E : env) (fd : Z) (w : world) :
  handshake E fd w =
  let w1 := after_send fd socks5_initial_handshake w in
  let w2 := after_recv fd 2 w1 in
  match send_out E (n_send w) with
  | SysErr e => (None, set_errno e w1)
  | SysOk _ =>
      match recv_out E (n_recv w) with
      | RecvErr e => (None, record (Stderr HandshakeFailed) (set_errno e w2))
      | RecvData _ =>
          if handshake_accepted E w
          then (Some (x05 :: x00 :: skipn 2 (auto_array E 256)), w2)
          else (None, record (Stderr HandshakeFailed) w2)
      end
  end.
Proof.
  unfold handshake, handshake_accepted, bind, send, recv, sys_result.
  destruct (send_out E (n_send w)) as [v|e]; [|reflexivity].
  rewrite sys_ok_not_negative.
  cbn [n_recv next_send record].
  destruct (recv_out E (n_recv w)) as [e|[|b0 [|b1 d]]]; try reflexivity.
  cbn [firstn length memcpy app Nat.add].
  rewrite memcmp_handshake_reply.
  change (size_t_of (Z.of_nat 2) =? 2) with true.
  cbn [negb orb].
  destruct (Byte.eqb b0 x05) eqn:H0; [|reflexivity].
  destruct (Byte.eqb b1 x00) eqn:H1; [|reflexivity].
  apply byte_eqb_eq in H0, H1. subst. reflexivity.
Qed.

(** ** The connect request, case by case *)

Ltac at_least_ten buf H :=
  do 10 (destruct buf as [|? buf]; [cbn in H; lia|]); clear H.

Lemma literal_request_built (t : sockaddr_in) (buf : list byte) :
  (10 <= length buf)%nat ->
  exists tail,
    memcpy (memcpy (store (store (store (store buf 0 x05) 1 x01) 2 x00) 3 x01)
                   4 (in_addr_bytes (sin_addr t)) 4)
           8 (net16_bytes (sin_port t)) 2
    = literal_request t ++ tail.
Proof.
  intros H. at_least_ten buf H.
  destruct t as [fam [p0 p1] [[[a0 a1] a2] a3]].
  exists buf. reflexivity.
Qed.

Lemma connect_request_run_io (E : env) (fd : Z) (t : sockaddr_in)
      (buf : list byte) (w : world) :
  sin_family t = AF_INET ->
  (10 <= length buf)%nat ->
  InterceptOnly.connect_request E fd t buf w =
  let w1 := after_send fd (literal_request t) w in
  let w2 := after_recv fd 10 w1 in
  match send_out E (n_send w) with
  | SysErr e => (-1, set_errno e w1)
  | SysOk _ =>
      let c := byte_tested (recv_out E (n_recv w)) in
      match recv_out E (n_recv w) with
      | RecvErr e => (-1, record (Stderr (RequestFailed c)) (set_errno e w2))
      | RecvData _ =>
          if Byte.eqb c x00 then (0, w2)
          else (-1, record (Stderr (RequestFailed c)) w2)
      end
  end.
Proof.
  intros Hfam Hlen.
  unfold InterceptOnly.connect_request.
  rewrite Hfam. change (negb (AF_INET =? AF_INET)) with false. cbv iota.
  unfold SOCKS_VERSION, SOCKS_CMD_CONNECT, SOCKS_ATYP_IPV4.
  destruct (literal_request_built t buf Hlen) as [tail ->].
  unfold bind, send, recv, sys_result.
  assert (Hreq : firstn 10 (literal_request t ++ tail) = literal_request t).
  { destruct t as [fam [p0 p1] [[[a0 a1] a2] a3]]. reflexivity. }
  rewrite Hreq.
  destruct (send_out E (n_send w)) as [v|e]; [|reflexivity].
  rewrite sys_ok_not_negative.
  cbn [n_recv next_send record].
  destruct (recv_out E (n_recv w)) as [e|d] eqn:Hout.
  - rewrite size_t_of_not_negative. cbn [orb].
    destruct t as [fam [p0 p1] [[[a0 a1] a2] a3]]. reflexivity.
  - rewrite size_t_of_not_negative. cbn [orb].
    destruct t as [fam [p0 p1] [[[a0 a1] a2] a3]].
    destruct d as [|d0 [|d1 d]]; try reflexivity.
    cbn [byte_tested].
    change (nth 1 (memcpy _ 0 (firstn 10 (d0 :: d1 :: d))
                          (length (firstn 10 (d0 :: d1 :: d)))) x00)
      with d1.
    unfold SOCKS_REPLY_SUCCESS, after_send, after_recv, fprintf_stderr, ret.
    destruct (Byte.eqb d1 x00); reflexivity.
Qed.

Lemma one_connect_request_same (E : env) :
  One.connect_request E = InterceptOnly.connect_request E.
Proof. reflexivity. Qed.

Lemma one_negotiation_same (E : env) :
  One.perform_socks5_negotiation E = InterceptOnly.perform_socks5_negotiation E.
Proof. reflexivity. Qed.

Lemma strlen_le_length (s : list byte) : (strlen s <= length s)%nat.
Proof.
  induction s as [|c s IH]; cbn [strlen length]; [lia|].
  destruct (Byte.eqb c x00); lia.
Qed.

Lemma length_firstn_strlen (s : list byte) :
  length (firstn (strlen s) s) = strlen s.
Proof. apply firstn_length_le. apply strlen_le_length. Qed.

Lemma firstn_exact {A : Type} (l t : list A) (n : nat) :
  n = length l -> firstn n (l ++ t) = l.
Proof.
  intros ->. rewrite firstn_app, Nat.sub_diag, firstn_all. cbn.
  apply app_nil_r.
Qed.

Lemma name_request_built (hostname : list byte) (port : Z) (buf : list byte) :
  (5 <= length buf)%nat ->
  let len := strlen hostname in
  exists tail,
    memcpy (memcpy (store (store (store (store (store buf 0 x05) 1 x01)
                                        2 x00) 3 x03)
                          4 (byte_of_Z (Z.of_nat len)))
                   5 hostname len)
           (5 + len) (net16_bytes (htons port)) 2
    = name_request hostname port ++ tail
    /\ length (name_request hostname port) = (5 + len + 2)%nat.
Proof.
  intros H len.
  do 5 (destruct buf as [|? buf]; [cbn in H; lia|]). clear H.
  cbn [store firstn skipn app].
  unfold memcpy at 2. cbn [firstn skipn app Nat.add].
  unfold memcpy.
  set (hdr := [x05; x01; x00; x03; byte_of_Z (Z.of_nat len)]).
  set (name := firstn len hostname).
  assert (Hname : length name = len) by apply length_firstn_strlen.
  change (x05 :: x01 :: x00 :: x03 :: byte_of_Z (Z.of_nat len)
              :: name ++ skipn len buf)
    with ((hdr ++ name) ++ skipn len buf).
  rewrite (firstn_exact (hdr ++ name) (skipn len buf) (S (S (S (S (S len)))))).
  2:{ rewrite length_app, Hname. reflexivity. }
  eexists. split.
  - unfold name_request. fold len. fold hdr. fold name.
    change (firstn 2 (net16_bytes (htons port)))
      with (net16_bytes (htons port)).
    rewrite <- !app_assoc. reflexivity.
  - unfold name_request. fold len. fold name.
    cbn [length app]. rewrite length_app, Hname. cbn. lia.
Qed.

Lemma domain_connect_request_run (E : env) (fd : Z) (hostname : list byte)
      (port : Z) (buf : list byte) (w : world) :
  (5 <= length buf)%nat ->
  DnsIntercept.domain_connect_request E fd hostname port buf w =
  if (strlen hostname =? 0)%nat || (248 <? strlen hostname)%nat
  then (-1, record (Stderr InvalidHostname) w)
  else
    let w1 := after_send fd (name_request hostname port) w in
    let w2 := after_recv fd 10 w1 in
    match send_out E (n_send w) with
    | SysErr e => (-1, set_errno e w1)
    | SysOk _ =>
        let c := byte_tested (recv_out E (n_recv w)) in
        match recv_out E (n_recv w) with
        | RecvErr e =>
            (-1, record (Stderr (DomainRequestFailed c)) (set_errno e w2))
        | RecvData _ =>
            if Byte.eqb c x00 then (0, w2)
            else (-1, record (Stderr (DomainRequestFailed c)) w2)
        end
    end.
Proof.
  intros Hlen.
  unfold DnsIntercept.domain_connect_request.
  change (255 - 7)%nat with 248%nat.
  destruct ((strlen hostname =? 0)%nat || (248 <? strlen hostname)%nat);
    [reflexivity|].
  unfold SOCKS_VERSION, SOCKS_CMD_CONNECT, SOCKS_ATYP_DOMAINNAME.
  destruct (name_request_built hostname port buf Hlen) as [tail [-> Hreq]].
  unfold bind, send, recv, sys_result.
  rewrite (firstn_exact _ tail _ (eq_sym Hreq)).
  destruct (send_out E (n_send w)) as [v|e]; [|reflexivity].
  rewrite sys_ok_not_negative.
  cbn [n_recv next_send record].
  unfold name_request. cbn [app].
  destruct (recv_out E (n_recv w)) as [e|d] eqn:Hout;
    rewrite size_t_of_not_negative; cbn [orb].
  - reflexivity.
  - destruct d as [|d0 [|d1 d]]; try reflexivity.
    cbn [byte_tested].
    change (nth 1 (memcpy _ 0 (firstn 10 (d0 :: d1 :: d))
                          (length (firstn 10 (d0 :: d1 :: d)))) x00)
      with d1.
    unfold SOCKS_REPLY_SUCCESS, after_send, after_recv, fprintf_stderr, ret.
    destruct (Byte.eqb d1 x00); reflexivity.
Qed.

(** ** The negotiation as handshake, then request *)

Lemma negotiation_split_io (E : env) (fd : Z) (t : sockaddr_in) (w : world) :
  InterceptOnly.perform_socks5_negotiation E fd t w =
  let (o, w') := handshake E fd w in
  match o with
  | Some buf => InterceptOnly.connect_request E fd t buf w'
  | None => (-1, w')
  end.
Proof.
  unfold InterceptOnly.perform_socks5_negotiation, handshake,
    InterceptOnly.connect_request, bind.
  destruct (send E fd socks5_initial_handshake 3 w) as [r w1].
  destruct (r <? 0); [reflexivity|].
  destruct (recv E fd (auto_array E 256) 2 w1) as [[r2 buf] w2].
  destruct (negb (size_t_of r2 =? 2)
            || negb (memcmp buf socks5_handshake_success 2 =? 0));
    reflexivity.
Qed.

Lemma negotiation_split_dns (E : env) (fd : Z) (hostname : list byte)
      (port : Z) (w : world) :
  DnsIntercept.perform_socks5_domain_negotiation E fd hostname port w =
  let (o, w') := handshake E fd w in
  match o with
  | Some buf => DnsIntercept.domain_connect_request E fd hostname port buf w'
  | None => (-1, w')
  end.
Proof.
  unfold DnsIntercept.perform_socks5_domain_negotiation, handshake,
    DnsIntercept.domain_connect_request, bind.
  destruct (send E fd socks5_initial_handshake 3 w) as [r w1].
  destruct (r <? 0); [reflexivity|].
  destruct (recv E fd (auto_array E 256) 2 w1) as [[r2 buf] w2].
  destruct (negb (size_t_of r2 =? 2)
            || negb (memcmp buf socks5_handshake_success 2 =? 0));
    reflexivity.
Qed.

Lemma handshake_buffer_length (E : env) :
  (10 <= length (x05 :: x00 :: skipn 2 (auto_array E 256)))%nat.
Proof.
  cbn [length]. rewrite length_skipn, length_auto_array. lia.
Qed.

Lemma handshake_accepted_inv (E : env) (w : world) :
  handshake_accepted E w = true ->
  exists v d, send_out E (n_send w) = SysOk v
              /\ recv_out E (n_recv w) = RecvData (x05 :: x00 :: d).
Proof.
  unfold handshake_accepted.
  destruct (send_out E (n_send w)) as [v|e]; [|discriminate].
  destruct (recv_out E (n_recv w)) as [e|[|b0 [|b1 d]]]; try discriminate.
  intros H. apply andb_true_iff in H. destruct H as [H0 H1].
  apply byte_eqb_eq in H0, H1. subst. eauto.
Qed.

(** The whole negotiation of the literal form, in terms of what the proxy
    does. *)
Lemma negotiation_run_io (E : env) (fd : Z) (t : sockaddr_in) (w : world) :
  sin_family t = AF_INET ->
  InterceptOnly.perform_socks5_negotiation E fd t w =
  let w1 := after_send fd socks5_initial_handshake w in
  let w2 := after_recv fd 2 w1 in
  let w3 := after_send fd (literal_request t) w2 in
  let w4 := after_recv fd 10 w3 in
  let c := tested_byte E w in
  match send_out E (n_send w) with
  | SysErr e => (-1, set_errno e w1)
  | SysOk _ =>
      match recv_out E (n_recv w) with
      | RecvErr e => (-1, record (Stderr HandshakeFailed) (set_errno e w2))
      | RecvData _ =>
          if handshake_accepted E w then
            match send_out E (S (n_send w)) with
            | SysErr e => (-1, set_errno e w3)
            | SysOk _ =>
                match recv_out E (S (n_recv w)) with
                | RecvErr e =>
                    (-1, record (Stderr (RequestFailed c)) (set_errno e w4))
                | RecvData _ =>
                    if Byte.eqb c x00 then (0, w4)
                    else (-1, record (Stderr (RequestFailed c)) w4)
                end
            end
          else (-1, record (Stderr HandshakeFailed) w2)
      end
  end.
Proof.
  intros Hfam.
  rewrite negotiation_split_io, handshake_run. cbv zeta.
  destruct (send_out E (n_send w)) as [v|e]; [|reflexivity].
  destruct (recv_out E (n_recv w)) as [e|d]; [reflexivity|].
  destruct (handshake_accepted E w); [|reflexivity].
  rewrite (connect_request_run_io E fd t _ _ Hfam (handshake_buffer_length E)).
  reflexivity.
Qed.

Lemma negotiation_run_dns (E : env) (fd : Z) (hostname : list byte)
      (port : Z) (w : world) :
  DnsIntercept.perform_socks5_domain_negotiation E fd hostname port w =
  let w1 := after_send fd socks5_initial_handshake w in
  let w2 := after_recv fd 2 w1 in
  let w3 := after_send fd (name_request hostname port) w2 in
  let w4 := after_recv fd 10 w3 in
  let c := tested_byte E w in
  match send_out E (n_send w) with
  | SysErr e => (-1, set_errno e w1)
  | SysOk _ =>
      match recv_out E (n_recv w) with
      | RecvErr e => (-1, record (Stderr HandshakeFailed) (set_errno e w2))
      | RecvData _ =>
          if handshake_accepted E w then
            if (strlen hostname =? 0)%nat || (248 <? strlen hostname)%nat
            then (-1, record (Stderr InvalidHostname) w2)
            else
              match send_out E (S (n_send w)) with
              | SysErr e => (-1, set_errno e w3)
              | SysOk _ =>
                  match recv_out E (S (n_recv w)) with
                  | RecvErr e =>
                      (-1, record (Stderr (DomainRequestFailed c))
                                  (set_errno e w4))
                  | RecvData _ =>
                      if Byte.eqb c x00 then (0, w4)
                      else (-1, record (Stderr (DomainRequestFailed c)) w4)
                  end
              end
          else (-1, record (Stderr HandshakeFailed) w2)
      end
  end.
Proof.
  rewrite negotiation_split_dns, handshake_run. cbv zeta.
  destruct (send_out E (n_send w)) as [v|e]; [|reflexivity].
  destruct (recv_out E (n_recv w)) as [e|d]; [reflexivity|].
  destruct (handshake_accepted E w); [|reflexivity].
  rewrite (domain_connect_request_run E fd hostname port _ _).
  2:{ pose proof (handshake_buffer_length E). lia. }
  reflexivity.
Qed.

(** ** [connect], case by case *)

Lemma connect_run_io (E : env) (fd : Z) (addr : sockaddr_in) (len : Z)
      (w : world) :
  available E w = true ->
  InterceptOnly.connect E fd addr len w =
  let w0 := resolved w in
  if negb (sin_family addr =? AF_INET)
  then call_real_connect E fd addr len w0
  else
    match connect_out E (n_connect w) with
    | SysErr e =>
        (-1, record (Stderr ProxyUnreachable)
                    (set_errno e (proxy_called fd w0)))
    | SysOk _ =>
        conclude fd (InterceptOnly.perform_socks5_negotiation
                       E fd addr (proxy_called fd w0))
    end.
Proof.
  unfold available, resolved. intros Hav.
  unfold InterceptOnly.connect, InterceptOnly.init_dlsym, bind,
    real_connect_set, conclude.
  destruct (real_connect w) eqn:Hrc; cbn [negb orb] in *.
  - unfold ret at 1. cbn [negb].
    destruct (negb (sin_family addr =? AF_INET)); [reflexivity|].
    unfold call_real_connect at 1, sys_result, proxy_called.
    destruct (connect_out E (n_connect w)) as [v|e]; [|reflexivity].
    rewrite sys_ok_not_negative.
    match goal with
    | |- context [InterceptOnly.perform_socks5_negotiation E fd addr ?x] =>
        destruct (InterceptOnly.perform_socks5_negotiation E fd addr x)
          as [r w']
    end.
    destruct (r <? 0); reflexivity.
  - rewrite Hav. cbn [negb set_real_connect real_connect].
    destruct (negb (sin_family addr =? AF_INET)); [reflexivity|].
    unfold call_real_connect at 1, sys_result, proxy_called.
    change (n_connect (set_real_connect true w)) with (n_connect w).
    destruct (connect_out E (n_connect w)) as [v|e]; [|reflexivity].
    rewrite sys_ok_not_negative.
    match goal with
    | |- context [InterceptOnly.perform_socks5_negotiation E fd addr ?x] =>
        destruct (InterceptOnly.perform_socks5_negotiation E fd addr x)
          as [r w']
    end.
    destruct (r <? 0); reflexivity.
Qed.

Lemma connect_run_one (E : env) (fd : Z) (addr : sockaddr_in) (len : Z)
      (w : world) :
  available E w = true ->
  One.connect E fd addr len w =
  let w0 := resolved w in
  if negb (sin_family addr =? AF_INET)
  then (-1, set_errno EAFNOSUPPORT w0)
  else
    match connect_out E (n_connect w) with
    | SysErr e =>
        (-1, record (Stderr ProxyUnreachable)
                    (set_errno e (proxy_called fd w0)))
    | SysOk _ =>
        conclude fd (InterceptOnly.perform_socks5_negotiation
                       E fd addr (proxy_called fd w0))
    end.
Proof.
  unfold available, resolved. intros Hav.
  unfold One.connect, One.init_dlsym, bind, real_connect_set, conclude.
  rewrite one_negotiation_same.
  destruct (real_connect w) eqn:Hrc; cbn [negb orb] in *.
  - unfold ret at 1. cbn [negb].
    destruct (negb (sin_family addr =? AF_INET)); [reflexivity|].
    unfold call_real_connect at 1, sys_result, proxy_called.
    destruct (connect_out E (n_connect w)) as [v|e]; [|reflexivity].
    rewrite sys_ok_not_negative.
    match goal with
    | |- context [InterceptOnly.perform_socks5_negotiation E fd addr ?x] =>
        destruct (InterceptOnly.perform_socks5_negotiation E fd addr x)
          as [r w']
    end.
    destruct (r <? 0); reflexivity.
  - rewrite Hav. cbn [negb set_real_connect real_connect].
    destruct (negb (sin_family addr =? AF_INET)); [reflexivity|].
    unfold call_real_connect at 1, sys_result, proxy_called.
    change (n_connect (set_real_connect true w)) with (n_connect w).
    destruct (connect_out E (n_connect w)) as [v|e]; [|reflexivity].
    rewrite sys_ok_not_negative.
    match goal with
    | |- context [InterceptOnly.perform_socks5_negotiation E fd addr ?x] =>
        destruct (InterceptOnly.perform_socks5_negotiation E fd addr x)
          as [r w']
    end.
    destruct (r <? 0); reflexivity.
Qed.

(** Without the real [connect] the three wrappers fail at once. *)
Lemma connect_unavailable (E : env) (fd : Z) (addr : sockaddr_in) (len : Z)
      (w : world) :
  available E w = false ->
  (fst (One.connect E fd addr len w) = -1
   /\ errno (snd (One.connect E fd addr len w)) = EFAULT
   /\ trace (snd (One.connect E fd addr len w))
      = trace w ++ [Stderr NoRealConnect])
  /\ (fst (InterceptOnly.connect E fd addr len w) = -1
      /\ errno (snd (InterceptOnly.connect E fd addr len w)) = EFAULT
      /\ trace (snd (InterceptOnly.connect E fd addr len w))
         = trace w ++ [Stderr NoRealConnect])
  /\ (fst (DnsIntercept.connect E fd addr len w) = -1
      /\ errno (snd (DnsIntercept.connect E fd addr len w)) = EFAULT
      /\ exists evs,
          trace (snd (DnsIntercept.connect E fd addr len w))
          = trace w ++ Stderr NoRealConnect :: evs
          /\ (evs = [] \/ evs = [Stderr NoRealGethostbyname])).
Proof.
  unfold available. intros Hav.
  apply orb_false_iff in Hav. destruct Hav as [Hrc Hdl].
  unfold One.connect, One.init_dlsym, InterceptOnly.connect,
    InterceptOnly.init_dlsym, DnsIntercept.connect, DnsIntercept.init_dlsym,
    bind, real_connect_set.
  rewrite Hrc, Hdl.
  split; [cbn; auto|]. split; [cbn; auto|].
  destruct (dlsym_next E "gethostbyname"); cbn;
    (split; [reflexivity|]); (split; [reflexivity|]).
  - exists []. auto.
  - exists [Stderr NoRealGethostbyname]. rewrite <- app_assoc. auto.
Qed.

Lemma connect_run_dns (E : env) (fd : Z) (addr : sockaddr_in) (len : Z)
      (w : world) :
  available E w = true ->
  DnsIntercept.connect E fd addr len w =
  let w0 := resolved_dns E w in
  if negb (sin_family addr =? AF_INET)
  then call_real_connect E fd addr len w0
  else
    match connect_out E (n_connect w) with
    | SysErr e =>
        (-1, record (Stderr ProxyUnreachable)
                    (set_errno e (proxy_called fd w0)))
    | SysOk _ =>
        match inet_ntop4 (sin_addr addr) NI_MAXHOST with
        | Some hostname_buffer =>
            conclude fd (DnsIntercept.perform_socks5_domain_negotiation
                           E fd hostname_buffer (ntohs (sin_port addr))
                           (proxy_called fd w0))
        | None =>
            (-1, set_errno EFAULT
                   (record (Close fd)
                      (record (Stderr IpToStringFailed)
                              (proxy_called fd w0))))
        end
    end.
Proof.
  unfold available, resolved_dns. intros Hav.
  unfold DnsIntercept.connect, bind, real_connect_set, conclude.
  assert (Hgo : forall w0 : world,
             n_connect w0 = n_connect w ->
             (if negb (sin_family addr =? AF_INET)
              then call_real_connect E fd addr len
              else
                fun w1 : world =>
                  let (a0, w'0) :=
                    call_real_connect E fd tor_addr sizeof_sockaddr_in w1 in
                  (if a0 <? 0
                   then fprintf_stderr ProxyUnreachable ;; ret (-1)
                   else
                     match inet_ntop4 (sin_addr addr) NI_MAXHOST with
                     | Some hostname_buffer =>
                         r <- DnsIntercept.perform_socks5_domain_negotiation
                                E fd hostname_buffer (ntohs (sin_port addr)) ;;
                         if r <? 0
                         then close fd ;; assign_errno EHOSTUNREACH ;; ret (-1)
                         else ret 0
                     | None =>
                         fprintf_stderr IpToStringFailed ;;
                         close fd ;; assign_errno EFAULT ;; ret (-1)
                     end) w'0) w0
             = if negb (sin_family addr =? AF_INET)
               then call_real_connect E fd addr len w0
               else
                 match connect_out E (n_connect w) with
                 | SysErr e =>
                     (-1, record (Stderr ProxyUnreachable)
                                 (set_errno e (proxy_called fd w0)))
                 | SysOk _ =>
                     match inet_ntop4 (sin_addr addr) NI_MAXHOST with
                     | Some hostname_buffer =>
                         conclude fd
                           (DnsIntercept.perform_socks5_domain_negotiation
                              E fd hostname_buffer (ntohs (sin_port addr))
                              (proxy_called fd w0))
                     | None =>
                         (-1, set_errno EFAULT
                                (record (Close fd)
                                   (record (Stderr IpToStringFailed)
                                           (proxy_called fd w0))))
                     end
                 end).
  { intros w0 Hn.
    destruct (negb (sin_family addr =? AF_INET)); [reflexivity|].
    unfold call_real_connect, sys_result, proxy_called, conclude, bind.
    rewrite Hn.
    destruct (connect_out E (n_connect w)) as [v|e]; [|reflexivity].
    rewrite sys_ok_not_negative.
    destruct (inet_ntop4 (sin_addr addr) NI_MAXHOST) as [h|]; [|reflexivity].
    match goal with
    | |- context [DnsIntercept.perform_socks5_domain_negotiation
                    E fd h ?p ?x] =>
        destruct (DnsIntercept.perform_socks5_domain_negotiation E fd h p x)
          as [r w']
    end.
    destruct (r <? 0); reflexivity. }
  destruct (real_connect w) eqn:Hrc; cbn [negb orb] in *.
  - unfold ret at 1. cbn [negb]. apply Hgo. reflexivity.
  - assert (Hinit : exists w0, DnsIntercept.init_dlsym E w = (tt, w0)
                               /\ n_connect w0 = n_connect w
                               /\ real_connect w0 = true).
    { unfold DnsIntercept.init_dlsym. rewrite Hav.
      destruct (dlsym_next E "gethostbyname"); eexists;
        (split; [reflexivity|]); split; reflexivity. }
    destruct Hinit as [w0 [-> [Hn Hset]]].
    cbn [snd]. rewrite Hset. cbn [negb]. apply Hgo. exact Hn.
Qed.

(** ** The outcome of the negotiation *)

(** Reading a field of a world that was just updated. *)

Lemma trace_record (ev : event) (w : world) :
  trace (record ev w) = trace w ++ [ev].
Proof. reflexivity. Qed.

Lemma errno_record (ev : event) (w : world) :
  errno (record ev w) = errno w.
Proof. reflexivity. Qed.

Lemma n_send_record (ev : event) (w : world) :
  n_send (record ev w) = n_send w.
Proof. reflexivity. Qed.

Lemma n_recv_record (ev : event) (w : world) :
  n_recv (record ev w) = n_recv w.
Proof. reflexivity. Qed.

Lemma n_connect_record (ev : event) (w : world) :
  n_connect (record ev w) = n_connect w.
Proof. reflexivity. Qed.

Lemma trace_set_errno (e : Z) (w : world) :
  trace (set_errno e w) = trace w.
Proof. reflexivity. Qed.

Lemma errno_set_errno (e : Z) (w : world) :
  errno (set_errno e w) = e.
Proof. reflexivity. Qed.

Lemma n_send_set_errno (e : Z) (w : world) :
  n_send (set_errno e w) = n_send w.
Proof. reflexivity. Qed.

Lemma n_recv_set_errno (e : Z) (w : world) :
  n_recv (set_errno e w) = n_recv w.
Proof. reflexivity. Qed.

Lemma n_connect_set_errno (e : Z) (w : world) :
  n_connect (set_errno e w) = n_connect w.
Proof. reflexivity. Qed.

Lemma trace_next_send (w : world) :
  trace (next_send w) = trace w.
Proof. reflexivity. Qed.

Lemma errno_next_send (w : world) :
  errno (next_send w) = errno w.
Proof. reflexivity. Qed.

Lemma n_send_next_send (w : world) :
  n_send (next_send w) = S (n_send w).
Proof. reflexivity. Qed.

Lemma n_recv_next_send (w : world) :
  n_recv (next_send w) = n_recv w.
Proof. reflexivity. Qed.

Lemma n_connect_next_send (w : world) :
  n_connect (next_send w) = n_connect w.
Proof. reflexivity. Qed.

Lemma trace_next_recv (w : world) :
  trace (next_recv w) = trace w.
Proof. reflexivity. Qed.

Lemma errno_next_recv (w : world) :
  errno (next_recv w) = errno w.
Proof. reflexivity. Qed.

Lemma n_send_next_recv (w : world) :
  n_send (next_recv w) = n_send w.
Proof. reflexivity. Qed.

Lemma n_recv_next_recv (w : world) :
  n_recv (next_recv w) = S (n_recv w).
Proof. reflexivity. Qed.

Lemma n_connect_next_recv (w : world) :
  n_connect (next_recv w) = n_connect w.
Proof. reflexivity. Qed.

Lemma trace_next_connect (w : world) :
  trace (next_connect w) = trace w.
Proof. reflexivity. Qed.

Lemma errno_next_connect (w : world) :
  errno (next_connect w) = errno w.
Proof. reflexivity. Qed.

Lemma n_send_next_connect (w : world) :
  n_send (next_connect w) = n_send w.
Proof. reflexivity. Qed.

Lemma n_recv_next_connect (w : world) :
  n_recv (next_connect w) = n_recv w.
Proof. reflexivity. Qed.

Lemma n_connect_next_connect (w : world) :
  n_connect (next_connect w) = S (n_connect w).
Proof. reflexivity. Qed.

Lemma trace_set_real_connect (b : bool) (w : world) :
  trace (set_real_connect b w) = trace w.
Proof. reflexivity. Qed.

Lemma errno_set_real_connect (b : bool) (w : world) :
  errno (set_real_connect b w) = errno w.
Proof. reflexivity. Qed.

Lemma n_send_set_real_connect (b : bool) (w : world) :
  n_send (set_real_connect b w) = n_send w.
Proof. reflexivity. Qed.

Lemma n_recv_set_real_connect (b : bool) (w : world) :
  n_recv (set_real_connect b w) = n_recv w.
Proof. reflexivity. Qed.

Lemma n_connect_set_real_connect (b : bool) (w : world) :
  n_connect (set_real_connect b w) = n_connect w.
Proof. reflexivity. Qed.

Lemma trace_set_real_gethostbyname (b : bool) (w : world) :
  trace (set_real_gethostbyname b w) = trace w.
Proof. reflexivity. Qed.

Lemma errno_set_real_gethostbyname (b : bool) (w : world) :
  errno (set_real_gethostbyname b w) = errno w.
Proof. reflexivity. Qed.

Lemma n_send_set_real_gethostbyname (b : bool) (w : world) :
  n_send (set_real_gethostbyname b w) = n_send w.
Proof. reflexivity. Qed.

Lemma n_recv_set_real_gethostbyname (b : bool) (w : world) :
  n_recv (set_real_gethostbyname b w) = n_recv w.
Proof. reflexivity. Qed.

Lemma n_connect_set_real_gethostbyname (b : bool) (w : world) :
  n_connect (set_real_gethostbyname b w) = n_connect w.
Proof. reflexivity. Qed.

Create Rewrite HintDb world.

#[local] Hint Rewrite
  trace_record errno_record n_send_record n_recv_record
  n_connect_record trace_set_errno errno_set_errno n_send_set_errno
  n_recv_set_errno n_connect_set_errno trace_next_send errno_next_send
  n_send_next_send n_recv_next_send n_connect_next_send trace_next_recv
  errno_next_recv n_send_next_recv n_recv_next_recv n_connect_next_recv
  trace_next_connect errno_next_connect n_send_next_connect n_recv_next_connect
  n_connect_next_connect trace_set_real_connect errno_set_real_connect n_send_set_real_connect
  n_recv_set_real_connect n_connect_set_real_connect trace_set_real_gethostbyname errno_set_real_gethostbyname
  n_send_set_real_gethostbyname n_recv_set_real_gethostbyname n_connect_set_real_gethostbyname
  : world.

Ltac world_fields :=
  unfold conclude, proxy_called, after_send, after_recv;
  cbn [fst snd];
  autorewrite with world;
  repeat rewrite <- app_assoc; cbn [app].

Lemma handshake_accepted_same (E : env) (w1 w2 : world) :
  n_send w1 = n_send w2 -> n_recv w1 = n_recv w2 ->
  handshake_accepted E w1 = handshake_accepted E w2.
Proof. unfold handshake_accepted. intros -> ->. reflexivity. Qed.

Lemma tested_byte_same (E : env) (w1 w2 : world) :
  n_recv w1 = n_recv w2 -> tested_byte E w1 = tested_byte E w2.
Proof. unfold tested_byte. intros ->. reflexivity. Qed.

Lemma negotiation_succeeds_same (E : env) (w1 w2 : world) :
  n_send w1 = n_send w2 -> n_recv w1 = n_recv w2 ->
  negotiation_succeeds E w1 = negotiation_succeeds E w2.
Proof.
  unfold negotiation_succeeds. intros Hs Hr.
  rewrite (handshake_accepted_same E w1 w2 Hs Hr), Hs,
    (tested_byte_same E w1 w2 Hr).
  reflexivity.
Qed.

Lemma negotiation_outcome_io (E : env) (fd : Z) (t : sockaddr_in) (w : world) :
  sin_family t = AF_INET ->
  let res := InterceptOnly.perform_socks5_negotiation E fd t w in
  if negotiation_succeeds E w
  then fst res = 0
       /\ trace (snd res)
          = trace w ++ [Send fd socks5_initial_handshake; Recv fd 2;
                        Send fd (literal_request t); Recv fd 10]
  else fst res = -1
       /\ exists evs,
           trace (snd res) = trace w ++ Send fd socks5_initial_handshake :: evs
           /\ failure_events fd (literal_request t)
                             (RequestFailed (tested_byte E w)) evs.
Proof.
  intros Hfam res. subst res.
  rewrite (negotiation_run_io E fd t w Hfam). cbv zeta.
  unfold negotiation_succeeds, failure_events.
  destruct (handshake_accepted E w) eqn:Hacc.
  - destruct (handshake_accepted_inv E w Hacc) as [v [d [Hs Hr]]].
    rewrite Hs, Hr.
    destruct (send_out E (S (n_send w))) as [v2|e2]; cbn [sys_ok andb].
    + destruct (Byte.eqb (tested_byte E w) x00) eqn:Ht.
      * destruct (recv_out E (S (n_recv w))) as [e3|d3] eqn:Hr2.
        { unfold tested_byte in Ht. rewrite Hr2 in Ht. discriminate Ht. }
        split; [reflexivity|]. world_fields. reflexivity.
      * destruct (recv_out E (S (n_recv w))) as [e3|d3];
          (split; [reflexivity|]); world_fields; eauto 7.
    + split; [reflexivity|]. world_fields. eauto 7.
  - cbn [andb].
    destruct (send_out E (n_send w)) as [v|e];
      [destruct (recv_out E (n_recv w)) as [e|d]|];
      (split; [reflexivity|]); world_fields; eauto 7.
Qed.

Lemma negotiation_outcome_dns (E : env) (fd : Z) (hostname : list byte)
      (port : Z) (w : world) :
  let res := DnsIntercept.perform_socks5_domain_negotiation
               E fd hostname port w in
  if negotiation_succeeds E w && hostname_accepted hostname
  then fst res = 0
       /\ trace (snd res)
          = trace w ++ [Send fd socks5_initial_handshake; Recv fd 2;
                        Send fd (name_request hostname port); Recv fd 10]
  else fst res = -1
       /\ exists evs,
           trace (snd res) = trace w ++ Send fd socks5_initial_handshake :: evs
           /\ (failure_events fd (name_request hostname port)
                              (DomainRequestFailed (tested_byte E w)) evs
               \/ (hostname_accepted hostname = false
                   /\ evs = [Recv fd 2; Stderr InvalidHostname])).
Proof.
  intros res. subst res.
  rewrite (negotiation_run_dns E fd hostname port w). cbv zeta.
  unfold negotiation_succeeds, failure_events, hostname_accepted.
  destruct (handshake_accepted E w) eqn:Hacc.
  - destruct (handshake_accepted_inv E w Hacc) as [v [d [Hs Hr]]].
    rewrite Hs, Hr.
    destruct ((strlen hostname =? 0)%nat || (248 <? strlen hostname)%nat).
    { rewrite andb_false_r. split; [reflexivity|]. world_fields. eauto 8. }
    rewrite andb_true_r.
    destruct (send_out E (S (n_send w))) as [v2|e2]; cbn [sys_ok andb].
    + destruct (Byte.eqb (tested_byte E w) x00) eqn:Ht.
      * destruct (recv_out E (S (n_recv w))) as [e3|d3] eqn:Hr2.
        { unfold tested_byte in Ht. rewrite Hr2 in Ht. discriminate Ht. }
        split; [reflexivity|]. world_fields. reflexivity.
      * destruct (recv_out E (S (n_recv w))) as [e3|d3];
          (split; [reflexivity|]); world_fields; eauto 8.
    + split; [reflexivity|]. world_fields. eauto 8.
  - cbn [andb].
    destruct (send_out E (n_send w)) as [v|e];
      [destruct (recv_out E (n_recv w)) as [e|d]|];
      (split; [reflexivity|]); world_fields; eauto 8.
Qed.

(** ** The text of an address *)

Lemma dec_octet_text (b : byte) :
  strlen (dec_octet b) = length (dec_octet b)
  /\ (1 <= length (dec_octet b) <= 3)%nat
  /\ forall rest, strlen (dec_octet b ++ rest)
                  = (length (dec_octet b) + strlen rest)%nat.
Proof.
  destruct b; (split; [reflexivity|]); (split; [cbn; lia|]);
    intros rest; reflexivity.
Qed.

Lemma inet_ntop4_text (a : in_addr) :
  exists text, inet_ntop4 a NI_MAXHOST = Some text
               /\ (7 <= strlen text <= 15)%nat.
Proof.
  destruct a as [[[a0 a1] a2] a3].
  unfold inet_ntop4.
  set (text := dec_octet a0 ++ dot :: dec_octet a1 ++ dot :: dec_octet a2
                         ++ dot :: dec_octet a3).
  destruct (dec_octet_text a0) as [_ [L0 S0]].
  destruct (dec_octet_text a1) as [_ [L1 S1]].
  destruct (dec_octet_text a2) as [_ [L2 S2]].
  destruct (dec_octet_text a3) as [E3 [L3 _]].
  assert (Hlen : length text
                 = (length (dec_octet a0) + 1 + length (dec_octet a1) + 1
                    + length (dec_octet a2) + 1 + length (dec_octet a3))%nat).
  { unfold text. repeat (rewrite length_app; cbn [length]). lia. }
  assert (Hstr : strlen text = length text).
  { rewrite Hlen. unfold text.
    rewrite S0. cbn [strlen]. change (Byte.eqb dot x00) with false. cbv iota.
    rewrite S1. cbn [strlen]. change (Byte.eqb dot x00) with false. cbv iota.
    rewrite S2. cbn [strlen]. change (Byte.eqb dot x00) with false. cbv iota.
    rewrite E3. lia. }
  exists text. split.
  - destruct (Nat.ltb_spec (length text) NI_MAXHOST) as [_|H];
      [reflexivity|]. unfold NI_MAXHOST in H. lia.
  - rewrite Hstr, Hlen. lia.
Qed.

Lemma inet_ntop4_accepted (a : in_addr) :
  exists text, inet_ntop4 a NI_MAXHOST = Some text
               /\ hostname_accepted text = true.
Proof.
  destruct (inet_ntop4_text a) as [text [H [Hlo Hhi]]].
  exists text. split; [exact H|].
  unfold hostname_accepted.
  destruct (Nat.eqb_spec (strlen text) 0); [lia|].
  destruct (Nat.ltb_spec 248 (strlen text)); [lia|]. reflexivity.
Qed.

(** ** The handshake (claim C7) *)

(** C7.  The handshake sends exactly the three bytes 05 01 00; when that
    send does not fail it asks once for exactly two bytes; it goes on to the
    connect request if and only if two bytes were read and they are 05 00;
    in every other case (send failure, receive failure, short read,
    other bytes) each of the three negotiation functions returns -1 at once,
    with no second attempt. *)
Theorem handshake_exchange :
  forall (E : env) (fd : Z) (w : world),
    let res := handshake E fd w in
    (exists evs,
        trace (snd res) = trace w ++ Send fd [x05; x01; x00] :: evs
        /\ match send_out E (n_send w) with
           | SysErr _ => evs = []
           | SysOk _ =>
               if handshake_accepted E w then evs = [Recv fd 2]
               else evs = [Recv fd 2; Stderr HandshakeFailed]
           end)
    /\ ((exists buf, fst res = Some buf) <-> handshake_accepted E w = true)
    /\ (forall t,
           One.perform_socks5_negotiation E fd t w
           = match fst res with
             | Some buf => One.connect_request E fd t buf (snd res)
             | None => (-1, snd res)
             end)
    /\ (forall t,
           InterceptOnly.perform_socks5_negotiation E fd t w
           = match fst res with
             | Some buf => InterceptOnly.connect_request E fd t buf (snd res)
             | None => (-1, snd res)
             end)
    /\ (forall hostname port,
           DnsIntercept.perform_socks5_domain_negotiation E fd hostname port w
           = match fst res with
             | Some buf =>
                 DnsIntercept.domain_connect_request
                   E fd hostname port buf (snd res)
             | None => (-1, snd res)
             end).
Proof.
  intros E fd w res.
  split; [|split; [|split; [|split]]].
  - subst res. rewrite handshake_run. cbv zeta.
    unfold handshake_accepted, socks5_initial_handshake.
    destruct (send_out E (n_send w)) as [v|e].
    + destruct (recv_out E (n_recv w)) as [e|[|b0 [|b1 d]]];
        try (eexists; split; [world_fields; reflexivity|reflexivity]).
      destruct (Byte.eqb b0 x05 && Byte.eqb b1 x00);
        eexists; split; world_fields; reflexivity.
    + eexists; split; [world_fields; reflexivity|reflexivity].
  - subst res. rewrite handshake_run. cbv zeta.
    destruct (handshake_accepted E w) eqn:Hacc.
    + destruct (handshake_accepted_inv E w Hacc) as [v [d [-> ->]]].
      split; [reflexivity|]. intros _. eexists. reflexivity.
    + destruct (send_out E (n_send w)) as [v|e];
        [destruct (recv_out E (n_recv w)) as [e|d]|];
        (split; [intros [buf H]; discriminate H|discriminate]).
  - intros t. rewrite one_negotiation_same, one_connect_request_same,
      negotiation_split_io.
    subst res. destruct (handshake E fd w) as [[buf|] w']; reflexivity.
  - intros t. rewrite negotiation_split_io.
    subst res. destruct (handshake E fd w) as [[buf|] w']; reflexivity.
  - intros hostname port. rewrite negotiation_split_dns.
    subst res. destruct (handshake E fd w) as [[buf|] w']; reflexivity.
Qed.

(** ** The outcome of a redirected [connect] *)

Lemma resolved_fields (w : world) :
  trace (resolved w) = trace w
  /\ n_send (resolved w) = n_send w
  /\ n_recv (resolved w) = n_recv w
  /\ errno (resolved w) = errno w.
Proof. unfold resolved. destruct (real_connect w); repeat split. Qed.

Lemma resolved_dns_fields (E : env) (w : world) :
  available E w = true ->
  (exists evs, trace (resolved_dns E w) = trace w ++ evs
               /\ (evs = [] \/ evs = [Stderr NoRealGethostbyname]))
  /\ n_send (resolved_dns E w) = n_send w
  /\ n_recv (resolved_dns E w) = n_recv w.
Proof.
  unfold available, resolved_dns. intros Hav.
  destruct (real_connect w); cbn [orb] in Hav.
  - repeat split. exists []. rewrite app_nil_r. auto.
  - unfold DnsIntercept.init_dlsym. rewrite Hav.
    destruct (dlsym_next E "gethostbyname"); cbn; repeat split.
    + exists []. rewrite app_nil_r. auto.
    + exists [Stderr NoRealGethostbyname]. auto.
Qed.

Lemma conclude_success (fd : Z) (res : Z * world) :
  fst res = 0 -> conclude fd res = (0, snd res).
Proof. destruct res as [r w']. cbn. intros ->. reflexivity. Qed.

Lemma conclude_failure (fd : Z) (res : Z * world) :
  fst res = -1 ->
  conclude fd res = (-1, set_errno EHOSTUNREACH (record (Close fd) (snd res))).
Proof. destruct res as [r w']. cbn. intros ->. reflexivity. Qed.

(** What a negotiation started right after the proxy was reached leads
    [connect] to, given what the negotiation did. *)
Lemma conclude_outcome (fd : Z) (w0 : world) (tr : list event)
      (req : list byte) (msg : diag) (ok : bool) (res : Z * world) :
  trace w0 = tr ->
  (if ok
   then fst res = 0
        /\ trace (snd res)
           = trace (proxy_called fd w0)
             ++ [Send fd socks5_initial_handshake; Recv fd 2;
                 Send fd req; Recv fd 10]
   else fst res = -1
        /\ exists evs,
            trace (snd res)
            = trace (proxy_called fd w0)
              ++ Send fd socks5_initial_handshake :: evs
            /\ failure_events fd req msg evs) ->
  let out := conclude fd res in
  if ok
  then fst out = 0
       /\ trace (snd out)
          = tr ++ [Connect fd tor_addr sizeof_sockaddr_in;
                   Send fd socks5_initial_handshake; Recv fd 2;
                   Send fd req; Recv fd 10]
  else fst out = -1
       /\ errno (snd out) = EHOSTUNREACH
       /\ exists evs,
           trace (snd out)
           = tr ++ Connect fd tor_addr sizeof_sockaddr_in
                :: Send fd socks5_initial_handshake :: evs ++ [Close fd]
           /\ failure_events fd req msg evs.
Proof.
  intros Htr H out. subst out tr.
  destruct ok.
  - destruct H as [Hr Ht]. rewrite (conclude_success fd res Hr).
    split; [reflexivity|]. cbn [snd]. rewrite Ht. world_fields. reflexivity.
  - destruct H as [Hr [evs [Ht Hev]]]. rewrite (conclude_failure fd res Hr).
    split; [reflexivity|]. split; [reflexivity|].
    exists evs. split; [|exact Hev].
    world_fields. rewrite Ht. world_fields. reflexivity.
Qed.

Lemma redirect_outcome_io (E : env) (fd : Z) (addr : sockaddr_in) (len : Z)
      (w : world) (v : N) :
  sin_family addr = AF_INET ->
  available E w = true ->
  connect_out E (n_connect w) = SysOk v ->
  let out := InterceptOnly.connect E fd addr len w in
  if negotiation_succeeds E w
  then fst out = 0
       /\ trace (snd out)
          = trace w ++ [Connect fd tor_addr sizeof_sockaddr_in;
                        Send fd socks5_initial_handshake; Recv fd 2;
                        Send fd (literal_request addr); Recv fd 10]
  else fst out = -1
       /\ errno (snd out) = EHOSTUNREACH
       /\ exists evs,
           trace (snd out)
           = trace w ++ Connect fd tor_addr sizeof_sockaddr_in
                     :: Send fd socks5_initial_handshake :: evs ++ [Close fd]
           /\ failure_events fd (literal_request addr)
                             (RequestFailed (tested_byte E w)) evs.
Proof.
  intros Hfam Hav Hc.
  rewrite (connect_run_io E fd addr len w Hav). cbv zeta.
  rewrite Hfam. change (negb (AF_INET =? AF_INET)) with false. cbv iota.
  rewrite Hc.
  destruct (resolved_fields w) as [Htr [Hs [Hr _]]].
  pose proof (negotiation_outcome_io E fd addr (proxy_called fd (resolved w))
                                     Hfam) as H.
  cbv zeta in H.
  rewrite (negotiation_succeeds_same E (proxy_called fd (resolved w)) w Hs Hr)
    in H.
  rewrite (tested_byte_same E (proxy_called fd (resolved w)) w Hr) in H.
  exact (conclude_outcome fd (resolved w) (trace w) _ _ _ _ Htr H).
Qed.

Lemma redirect_outcome_one (E : env) (fd : Z) (addr : sockaddr_in) (len : Z)
      (w : world) (v : N) :
  sin_family addr = AF_INET ->
  available E w = true ->
  connect_out E (n_connect w) = SysOk v ->
  let out := One.connect E fd addr len w in
  if negotiation_succeeds E w
  then fst out = 0
       /\ trace (snd out)
          = trace w ++ [Connect fd tor_addr sizeof_sockaddr_in;
                        Send fd socks5_initial_handshake; Recv fd 2;
                        Send fd (literal_request addr); Recv fd 10]
  else fst out = -1
       /\ errno (snd out) = EHOSTUNREACH
       /\ exists evs,
           trace (snd out)
           = trace w ++ Connect fd tor_addr sizeof_sockaddr_in
                     :: Send fd socks5_initial_handshake :: evs ++ [Close fd]
           /\ failure_events fd (literal_request addr)
                             (RequestFailed (tested_byte E w)) evs.
Proof.
  intros Hfam Hav Hc.
  rewrite (connect_run_one E fd addr len w Hav). cbv zeta.
  rewrite Hfam. change (negb (AF_INET =? AF_INET)) with false. cbv iota.
  rewrite Hc.
  destruct (resolved_fields w) as [Htr [Hs [Hr _]]].
  pose proof (negotiation_outcome_io E fd addr (proxy_called fd (resolved w))
                                     Hfam) as H.
  cbv zeta in H.
  rewrite (negotiation_succeeds_same E (proxy_called fd (resolved w)) w Hs Hr)
    in H.
  rewrite (tested_byte_same E (proxy_called fd (resolved w)) w Hr) in H.
  exact (conclude_outcome fd (resolved w) (trace w) _ _ _ _ Htr H).
Qed.

Lemma redirect_outcome_dns (E : env) (fd : Z) (addr : sockaddr_in) (len : Z)
      (w : world) (v : N) :
  sin_family addr = AF_INET ->
  available E w = true ->
  connect_out E (n_connect w) = SysOk v ->
  let out := DnsIntercept.connect E fd addr len w in
  exists text pre,
    inet_ntop4 (sin_addr addr) NI_MAXHOST = Some text
    /\ (pre = [] \/ pre = [Stderr NoRealGethostbyname])
    /\ if negotiation_succeeds E w
       then fst out = 0
            /\ trace (snd out)
               = (trace w ++ pre)
                 ++ [Connect fd tor_addr sizeof_sockaddr_in;
                     Send fd socks5_initial_handshake; Recv fd 2;
                     Send fd (name_request text (ntohs (sin_port addr)));
                     Recv fd 10]
       else fst out = -1
            /\ errno (snd out) = EHOSTUNREACH
            /\ exists evs,
                trace (snd out)
                = (trace w ++ pre)
                  ++ Connect fd tor_addr sizeof_sockaddr_in
                  :: Send fd socks5_initial_handshake :: evs ++ [Close fd]
                /\ failure_events
                     fd (name_request text (ntohs (sin_port addr)))
                     (DomainRequestFailed (tested_byte E w)) evs.
Proof.
  intros Hfam Hav Hc.
  rewrite (connect_run_dns E fd addr len w Hav). cbv zeta.
  rewrite Hfam. change (negb (AF_INET =? AF_INET)) with false. cbv iota.
  rewrite Hc.
  destruct (inet_ntop4_accepted (sin_addr addr)) as [text [Htext Hok]].
  rewrite Htext.
  destruct (resolved_dns_fields E w Hav) as [[pre [Htr Hpre]] [Hs Hr]].
  exists text, pre. split; [reflexivity|]. split; [exact Hpre|].
  pose proof (negotiation_outcome_dns
                E fd text (ntohs (sin_port addr))
                (proxy_called fd (resolved_dns E w))) as H.
  cbv zeta in H.
  rewrite (negotiation_succeeds_same
             E (proxy_called fd (resolved_dns E w)) w Hs Hr) in H.
  rewrite (tested_byte_same E (proxy_called fd (resolved_dns E w)) w Hr) in H.
  rewrite Hok, andb_true_r in H.
  apply (conclude_outcome fd (resolved_dns E w) (trace w ++ pre) _ _ _ _ Htr).
  destruct (negotiation_succeeds E w); [exact H|].
  destruct H as [Hres [evs [Ht [Hev|[Hbad _]]]]].
  - split; [exact Hres|]. exists evs. split; assumption.
  - discriminate Hbad.
Qed.

(** ** End-to-end scenario A (claim C8) *)

(** C8.  For the literal target 1.2.3.4 port 443 the request sent is exactly
    the ten bytes 05 01 00 01 01 02 03 04 01 BB, and when the proxy answers
    05 00 to the handshake and 05 00 00 01 00 00 00 00 00 00 to the request,
    [connect] of [1.c] and of [ConnetcInterceptionOnly.c] returns 0, the
    socket left open and connected through the proxy. *)
Theorem scenario_A_established :
  forall (E : env) (fd len : Z) (w : world) (v : N),
    available E w = true ->
    connect_out E (n_connect w) = SysOk v ->
    sys_ok (send_out E (n_send w)) = true ->
    recv_out E (n_recv w) = RecvData [x05; x00] ->
    sys_ok (send_out E (S (n_send w))) = true ->
    recv_out E (S (n_recv w))
    = RecvData [x05; x00; x00; x01; x00; x00; x00; x00; x00; x00] ->
    let wire := [Connect fd tor_addr 16;
                 Send fd [x05; x01; x00];
                 Recv fd 2;
                 Send fd [x05; x01; x00; x01; x01; x02; x03; x04; x01; xbb];
                 Recv fd 10] in
    (fst (One.connect E fd target_1_2_3_4_443 len w) = 0
     /\ trace (snd (One.connect E fd target_1_2_3_4_443 len w))
        = trace w ++ wire)
    /\ (fst (InterceptOnly.connect E fd target_1_2_3_4_443 len w) = 0
        /\ trace (snd (InterceptOnly.connect E fd target_1_2_3_4_443 len w))
           = trace w ++ wire).
Proof.
  intros E fd len w v Hav Hc Hs1 Hr1 Hs2 Hr2 wire.
  assert (Hok : negotiation_succeeds E w = true).
  { unfold negotiation_succeeds, handshake_accepted, tested_byte.
    rewrite Hr1, Hr2, Hs2.
    destruct (send_out E (n_send w)); [reflexivity|discriminate Hs1]. }
  split.
  - pose proof (redirect_outcome_one E fd target_1_2_3_4_443 len w v
                                     eq_refl Hav Hc) as H.
    cbv zeta in H. rewrite Hok in H. exact H.
  - pose proof (redirect_outcome_io E fd target_1_2_3_4_443 len w v
                                    eq_refl Hav Hc) as H.
    cbv zeta in H. rewrite Hok in H. exact H.
Qed.

Lemma scenario_A_established_witness :
  available scenario_A started = true
  /\ (fst (One.connect scenario_A 3 target_1_2_3_4_443 16 started) = 0
      /\ trace (snd (One.connect scenario_A 3 target_1_2_3_4_443 16 started))
         = trace started
           ++ [Connect 3 tor_addr 16;
               Send 3 [x05; x01; x00];
               Recv 3 2;
               Send 3 [x05; x01; x00; x01; x01; x02; x03; x04; x01; xbb];
               Recv 3 10])
  /\ (fst (InterceptOnly.connect scenario_A 3 target_1_2_3_4_443 16 started)
      = 0
      /\ trace (snd (InterceptOnly.connect
                       scenario_A 3 target_1_2_3_4_443 16 started))
         = trace started
           ++ [Connect 3 tor_addr 16;
               Send 3 [x05; x01; x00];
               Recv 3 2;
               Send 3 [x05; x01; x00; x01; x01; x02; x03; x04; x01; xbb];
               Recv 3 10]).
Proof.
  split; [reflexivity|].
  apply (scenario_A_established scenario_A 3 16 started 0%N);
    reflexivity.
Defined.

(** ** Failure of the negotiation (claim C10) *)

(** Every way the negotiation can fail makes [negotiation_succeeds] false:
    a failing send of the handshake, a failing or short read of its reply,
    a reply other than 05 00, a failing send of the request, a reply code
    other than zero. *)
Lemma negotiation_failure_causes (E : env) (w : world) :
  (sys_ok (send_out E (n_send w)) = false
   \/ (exists e, recv_out E (n_recv w) = RecvErr e)
   \/ handshake_accepted E w = false
   \/ sys_ok (send_out E (S (n_send w))) = false
   \/ (exists c, reply_code E w = Some c /\ c <> x00))
  -> negotiation_succeeds E w = false.
Proof.
  unfold negotiation_succeeds.
  intros [H|[[e H]|[H|[H|[c [H Hc]]]]]].
  - unfold handshake_accepted.
    destruct (send_out E (n_send w)); [discriminate H|reflexivity].
  - unfold handshake_accepted. rewrite H.
    destruct (send_out E (n_send w)); reflexivity.
  - rewrite H. reflexivity.
  - rewrite H. apply andb_false_iff. left. apply andb_false_r.
  - apply andb_false_iff. right.
    unfold tested_byte, reply_code in *.
    destruct (recv_out E (S (n_recv w))) as [e|[|d0 [|d1 d]]];
      try discriminate H.
    injection H as ->. cbn. apply byte_eqb_neq. exact Hc.
Qed.

(** C10.  Once the socket is connected to the proxy, a negotiation that
    fails, for whichever reason, makes [connect] of each of the three files
    return -1 with [errno] set to [EHOSTUNREACH], its last call being the
    [close] of the socket. *)
Theorem negotiation_failure_reported :
  forall (E : env) (fd : Z) (addr : sockaddr_in) (len : Z) (w : world) (v : N),
    sin_family addr = AF_INET ->
    available E w = true ->
    connect_out E (n_connect w) = SysOk v ->
    negotiation_succeeds E w = false ->
    (fst (One.connect E fd addr len w) = -1
     /\ errno (snd (One.connect E fd addr len w)) = EHOSTUNREACH
     /\ exists pre,
         trace (snd (One.connect E fd addr len w)) = pre ++ [Close fd])
    /\ (fst (InterceptOnly.connect E fd addr len w) = -1
        /\ errno (snd (InterceptOnly.connect E fd addr len w)) = EHOSTUNREACH
        /\ exists pre,
            trace (snd (InterceptOnly.connect E fd addr len w))
            = pre ++ [Close fd])
    /\ (fst (DnsIntercept.connect E fd addr len w) = -1
        /\ errno (snd (DnsIntercept.connect E fd addr len w)) = EHOSTUNREACH
        /\ exists pre,
            trace (snd (DnsIntercept.connect E fd addr len w))
            = pre ++ [Close fd]).
Proof.
  intros E fd addr len w v Hfam Hav Hc Hfail.
  split; [|split].
  - pose proof (redirect_outcome_one E fd addr len w v Hfam Hav Hc) as H.
    cbv zeta in H. rewrite Hfail in H.
    destruct H as [Hr [He [evs [Ht _]]]].
    split; [exact Hr|]. split; [exact He|].
    eexists. rewrite Ht.
    rewrite 2 app_comm_cons, app_assoc. reflexivity.
  - pose proof (redirect_outcome_io E fd addr len w v Hfam Hav Hc) as H.
    cbv zeta in H. rewrite Hfail in H.
    destruct H as [Hr [He [evs [Ht _]]]].
    split; [exact Hr|]. split; [exact He|].
    eexists. rewrite Ht.
    rewrite 2 app_comm_cons, app_assoc. reflexivity.
  - pose proof (redirect_outcome_dns E fd addr len w v Hfam Hav Hc) as H.
    cbv zeta in H. destruct H as [text [pre [_ [_ H]]]].
    rewrite Hfail in H.
    destruct H as [Hr [He [evs [Ht _]]]].
    split; [exact Hr|]. split; [exact He|].
    eexists. rewrite Ht.
    rewrite 2 app_comm_cons, app_assoc. reflexivity.
Qed.

Lemma negotiation_failure_reported_witness :
  negotiation_succeeds refusing_proxy started = false
  /\ (fst (One.connect refusing_proxy 3 target_1_2_3_4_443 16 started) = -1
      /\ errno (snd (One.connect refusing_proxy 3 target_1_2_3_4_443 16
                                 started)) = EHOSTUNREACH
      /\ exists pre,
          trace (snd (One.connect refusing_proxy 3 target_1_2_3_4_443 16
                                  started)) = pre ++ [Close 3])
  /\ (fst (InterceptOnly.connect refusing_proxy 3 target_1_2_3_4_443 16
                                 started) = -1
      /\ errno (snd (InterceptOnly.connect
                       refusing_proxy 3 target_1_2_3_4_443 16 started))
         = EHOSTUNREACH
      /\ exists pre,
          trace (snd (InterceptOnly.connect
                        refusing_proxy 3 target_1_2_3_4_443 16 started))
          = pre ++ [Close 3])
  /\ (fst (DnsIntercept.connect refusing_proxy 3 target_1_2_3_4_443 16
                                started) = -1
      /\ errno (snd (DnsIntercept.connect
                       refusing_proxy 3 target_1_2_3_4_443 16 started))
         = EHOSTUNREACH
      /\ exists pre,
          trace (snd (DnsIntercept.connect
                        refusing_proxy 3 target_1_2_3_4_443 16 started))
          = pre ++ [Close 3]).
Proof.
  split; [reflexivity|].
  apply (negotiation_failure_reported
           refusing_proxy 3 target_1_2_3_4_443 16 started 0%N);
    reflexivity.
Defined.

(** ** Closing the socket on failure (claim C6) *)

(** The claim as stated fails when the proxy cannot be reached: [connect]
    returns -1 and the socket has not been closed. *)
Lemma proxy_down_socket_left_open :
  (fst (One.connect no_proxy 3 target_1_2_3_4_443 16 started) = -1
   /\ existsb (is_close 3)
              (trace (snd (One.connect no_proxy 3 target_1_2_3_4_443 16
                                       started))) = false)
  /\ (fst (InterceptOnly.connect no_proxy 3 target_1_2_3_4_443 16 started)
      = -1
      /\ existsb (is_close 3)
                 (trace (snd (InterceptOnly.connect
                                no_proxy 3 target_1_2_3_4_443 16 started)))
         = false).
Proof. repeat split. Qed.

(** C6, amended.  A redirection that fails after the socket was connected
    to the proxy (in the handshake or in the connect request and its reply)
    closes the socket as its last call before it returns -1; when the
    connection to the proxy itself fails, -1 is returned with the error of
    that call and the socket is not closed. *)
Theorem failure_closes_once_proxy_reached :
  forall (E : env) (fd : Z) (addr : sockaddr_in) (len : Z) (w : world),
    sin_family addr = AF_INET ->
    available E w = true ->
    let closes (out : Z * world) :=
      match connect_out E (n_connect w) with
      | SysOk _ =>
          fst out = 0
          \/ (fst out = -1
              /\ exists pre, trace (snd out) = pre ++ [Close fd])
      | SysErr e =>
          fst out = -1
          /\ errno (snd out) = e
          /\ trace (snd out)
             = trace w ++ [Connect fd tor_addr 16; Stderr ProxyUnreachable]
      end in
    closes (One.connect E fd addr len w)
    /\ closes (InterceptOnly.connect E fd addr len w).
Proof.
  intros E fd addr len w Hfam Hav closes. subst closes. cbv beta.
  destruct (connect_out E (n_connect w)) as [v|e] eqn:Hc.
  - split.
    + pose proof (redirect_outcome_one E fd addr len w v Hfam Hav Hc) as H.
      cbv zeta in H.
      destruct (negotiation_succeeds E w).
      * left. apply H.
      * right. destruct H as [Hr [_ [evs [Ht _]]]].
        split; [exact Hr|]. eexists. rewrite Ht.
        rewrite 2 app_comm_cons, app_assoc. reflexivity.
    + pose proof (redirect_outcome_io E fd addr len w v Hfam Hav Hc) as H.
      cbv zeta in H.
      destruct (negotiation_succeeds E w).
      * left. apply H.
      * right. destruct H as [Hr [_ [evs [Ht _]]]].
        split; [exact Hr|]. eexists. rewrite Ht.
        rewrite 2 app_comm_cons, app_assoc. reflexivity.
  - destruct (resolved_fields w) as [Htr _].
    rewrite (connect_run_one E fd addr len w Hav).
    rewrite (connect_run_io E fd addr len w Hav). cbv zeta.
    rewrite Hfam. change (negb (AF_INET =? AF_INET)) with false. cbv iota.
    rewrite Hc.
    repeat split; world_fields; rewrite Htr; reflexivity.
Qed.

Lemma failure_closes_once_proxy_reached_witness :
  (fst (One.connect refusing_proxy 3 target_1_2_3_4_443 16 started) = 0
   \/ (fst (One.connect refusing_proxy 3 target_1_2_3_4_443 16 started) = -1
       /\ exists pre,
           trace (snd (One.connect refusing_proxy 3 target_1_2_3_4_443 16
                                   started)) = pre ++ [Close 3]))
  /\ (fst (InterceptOnly.connect refusing_proxy 3 target_1_2_3_4_443 16
                                 started) = 0
      \/ (fst (InterceptOnly.connect refusing_proxy 3 target_1_2_3_4_443 16
                                     started) = -1
          /\ exists pre,
              trace (snd (InterceptOnly.connect
                            refusing_proxy 3 target_1_2_3_4_443 16 started))
              = pre ++ [Close 3])).
Proof.
  apply (failure_closes_once_proxy_reached
           refusing_proxy 3 target_1_2_3_4_443 16 started);
    reflexivity.
Defined.

(** ** Destinations that are not IPv4 (claim C9) *)

(** C9.  For a destination whose family is not [AF_INET] none of the three
    [connect] connects to the proxy, sends or receives anything; with the
    real [connect] at hand, [1.c] refuses the call with [EAFNOSUPPORT] and
    makes no call at all, and the two other files hand descriptor, address
    and length as they are to the real [connect] and return its result. *)
Theorem non_ipv4_never_redirected :
  forall (E : env) (fd : Z) (addr : sockaddr_in) (len : Z) (w : world),
    sin_family addr <> AF_INET ->
    let quiet (out : Z * world) :=
      exists evs, trace (snd out) = trace w ++ evs
                  /\ existsb is_proxy_traffic evs = false in
    (quiet (One.connect E fd addr len w)
     /\ quiet (InterceptOnly.connect E fd addr len w)
     /\ quiet (DnsIntercept.connect E fd addr len w))
    /\ (available E w = true ->
        (fst (One.connect E fd addr len w) = -1
         /\ errno (snd (One.connect E fd addr len w)) = EAFNOSUPPORT
         /\ trace (snd (One.connect E fd addr len w)) = trace w)
        /\ InterceptOnly.connect E fd addr len w
           = call_real_connect E fd addr len (resolved w)
        /\ DnsIntercept.connect E fd addr len w
           = call_real_connect E fd addr len (resolved_dns E w)).
Proof.
  intros E fd addr len w Hfam quiet. subst quiet. cbv beta.
  assert (Hne : negb (sin_family addr =? AF_INET) = true).
  { apply negb_true_iff. apply Z.eqb_neq. exact Hfam. }
  assert (Hnp : sockaddr_eqb addr tor_addr = false).
  { unfold sockaddr_eqb.
    change (sin_family tor_addr) with AF_INET.
    apply negb_true_iff in Hne. rewrite Hne. reflexivity. }
  assert (Hpass : forall w0,
             trace (snd (call_real_connect E fd addr len w0))
             = trace w0 ++ [Connect fd addr len]).
  { intros w0. unfold call_real_connect, sys_result.
    destruct (connect_out E (n_connect w0)); reflexivity. }
  destruct (available E w) eqn:Hav.
  - destruct (resolved_fields w) as [Htr _].
    destruct (resolved_dns_fields E w Hav) as [[pre [Htr' Hpre]] _].
    rewrite (connect_run_one E fd addr len w Hav).
    rewrite (connect_run_io E fd addr len w Hav).
    rewrite (connect_run_dns E fd addr len w Hav). cbv zeta.
    rewrite Hne.
    split; [split; [|split]|].
    + exists []. cbn. rewrite Htr, app_nil_r. auto.
    + exists [Connect fd addr len]. rewrite Hpass, Htr.
      split; [reflexivity|]. cbn. rewrite Hnp. reflexivity.
    + exists (pre ++ [Connect fd addr len]).
      rewrite Hpass, Htr', app_assoc.
      split; [reflexivity|].
      rewrite existsb_app. cbn. rewrite Hnp.
      destruct Hpre as [-> | ->]; reflexivity.
    + intros _. repeat split. cbn. exact Htr.
  - destruct (connect_unavailable E fd addr len w Hav)
      as [[_ [_ H1]] [[_ [_ H2]] [_ [_ [evs [H3 Hevs]]]]]].
    split; [|discriminate].
    split; [|split].
    + eexists. split; [exact H1|reflexivity].
    + eexists. split; [exact H2|reflexivity].
    + eexists. split; [exact H3|].
      destruct Hevs as [-> | ->]; reflexivity.
Qed.

Lemma non_ipv4_never_redirected_witness :
  sin_family unix_socket_address <> AF_INET
  /\ (fst (One.connect scenario_A 3 unix_socket_address 110 started) = -1
      /\ errno (snd (One.connect scenario_A 3 unix_socket_address 110
                                 started)) = EAFNOSUPPORT
      /\ trace (snd (One.connect scenario_A 3 unix_socket_address 110
                                 started)) = trace started)
  /\ InterceptOnly.connect scenario_A 3 unix_socket_address 110 started
     = call_real_connect scenario_A 3 unix_socket_address 110
                         (resolved started)
  /\ DnsIntercept.connect scenario_A 3 unix_socket_address 110 started
     = call_real_connect scenario_A 3 unix_socket_address 110
                         (resolved_dns scenario_A started).
Proof.
  assert (H : sin_family unix_socket_address <> AF_INET) by discriminate.
  split; [exact H|].
  apply (proj2 (non_ipv4_never_redirected
                  scenario_A 3 unix_socket_address 110 started H)).
  reflexivity.
Defined.

(** ** A negotiation that gets as far as the reply *)

Lemma reply_reached_io (E : env) (fd : Z) (t : sockaddr_in) (w : world) :
  sin_family t = AF_INET ->
  handshake_accepted E w = true ->
  sys_ok (send_out E (S (n_send w))) = true ->
  let res := InterceptOnly.perform_socks5_negotiation E fd t w in
  fst res = (if Byte.eqb (tested_byte E w) x00 then 0 else -1)
  /\ trace (snd res)
     = trace w ++ [Send fd socks5_initial_handshake; Recv fd 2;
                   Send fd (literal_request t); Recv fd 10]
       ++ reply_tail RequestFailed (tested_byte E w).
Proof.
  intros Hfam Hacc Hs2 res. subst res.
  rewrite (negotiation_run_io E fd t w Hfam). cbv zeta.
  destruct (handshake_accepted_inv E w Hacc) as [v [d [Hs Hr]]].
  rewrite Hs, Hr, Hacc.
  destruct (send_out E (S (n_send w))) as [v2|e2]; [|discriminate Hs2].
  unfold reply_tail.
  destruct (Byte.eqb (tested_byte E w) x00) eqn:Ht.
  - destruct (recv_out E (S (n_recv w))) as [e3|d3] eqn:Hr2.
    { unfold tested_byte in Ht. rewrite Hr2 in Ht. discriminate Ht. }
    split; [reflexivity|]. world_fields. reflexivity.
  - destruct (recv_out E (S (n_recv w))) as [e3|d3];
      (split; [reflexivity|]); world_fields; reflexivity.
Qed.

Lemma reply_reached_dns (E : env) (fd : Z) (hostname : list byte) (port : Z)
      (w : world) :
  hostname_accepted hostname = true ->
  handshake_accepted E w = true ->
  sys_ok (send_out E (S (n_send w))) = true ->
  let res := DnsIntercept.perform_socks5_domain_negotiation
               E fd hostname port w in
  fst res = (if Byte.eqb (tested_byte E w) x00 then 0 else -1)
  /\ trace (snd res)
     = trace w ++ [Send fd socks5_initial_handshake; Recv fd 2;
                   Send fd (name_request hostname port); Recv fd 10]
       ++ reply_tail DomainRequestFailed (tested_byte E w).
Proof.
  intros Hname Hacc Hs2 res. subst res.
  rewrite (negotiation_run_dns E fd hostname port w). cbv zeta.
  destruct (handshake_accepted_inv E w Hacc) as [v [d [Hs Hr]]].
  rewrite Hs, Hr, Hacc.
  unfold hostname_accepted in Hname. apply negb_true_iff in Hname.
  rewrite Hname.
  destruct (send_out E (S (n_send w))) as [v2|e2]; [|discriminate Hs2].
  unfold reply_tail.
  destruct (Byte.eqb (tested_byte E w) x00) eqn:Ht.
  - destruct (recv_out E (S (n_recv w))) as [e3|d3] eqn:Hr2.
    { unfold tested_byte in Ht. rewrite Hr2 in Ht. discriminate Ht. }
    split; [reflexivity|]. world_fields. reflexivity.
  - destruct (recv_out E (S (n_recv w))) as [e3|d3];
      (split; [reflexivity|]); world_fields; reflexivity.
Qed.

(** ** Reply codes (claim C4) *)

(** The claim as stated fails: reply codes 1 (general failure), 2 (denied
    by the rules) and 9 (not a defined code) give the caller the very same
    failure; the negotiation functions return -1 for all of them. *)
Lemma reply_codes_not_told_apart :
  (caller_view (InterceptOnly.connect (reply_with_code x01) 3
                                      target_1_2_3_4_443 16 started)
   = caller_view (InterceptOnly.connect (reply_with_code x02) 3
                                        target_1_2_3_4_443 16 started)
   /\ caller_view (InterceptOnly.connect (reply_with_code x01) 3
                                         target_1_2_3_4_443 16 started)
      = caller_view (InterceptOnly.connect (reply_with_code x09) 3
                                           target_1_2_3_4_443 16 started))
  /\ (caller_view (DnsIntercept.connect (reply_with_code x01) 3
                                        address_93_184_216_34_80 16 started)
      = caller_view (DnsIntercept.connect (reply_with_code x02) 3
                                          address_93_184_216_34_80 16 started)
      /\ caller_view (DnsIntercept.connect (reply_with_code x01) 3
                                           address_93_184_216_34_80 16 started)
         = caller_view (DnsIntercept.connect
                          (reply_with_code x09) 3
                          address_93_184_216_34_80 16 started))
  /\ fst (InterceptOnly.perform_socks5_negotiation
            (reply_with_code x01) 3 target_1_2_3_4_443 started)
     = fst (InterceptOnly.perform_socks5_negotiation
              (reply_with_code x02) 3 target_1_2_3_4_443 started)
  /\ fst (DnsIntercept.perform_socks5_domain_negotiation
            (reply_with_code x01) 3
            (list_byte_of_string "example.com") 80 started)
     = fst (DnsIntercept.perform_socks5_domain_negotiation
              (reply_with_code x02) 3
              (list_byte_of_string "example.com") 80 started).
Proof. vm_compute. repeat split. Qed.

(** C4, amended.  When the reply to the connect request delivers at least
    its first two bytes, reply code 0 makes the redirection succeed and
    every other code, 1 to 255 alike, makes it fail in one and the same way:
    [connect] returns -1 with [errno] set to [EHOSTUNREACH].  The code shows
    up only in the message written to [stderr]. *)
Theorem reply_code_zero_or_failure :
  forall (E : env) (fd : Z) (addr : sockaddr_in) (len : Z) (w : world)
         (v : N) (c0 c : byte) (rest : list byte),
    sin_family addr = AF_INET ->
    available E w = true ->
    connect_out E (n_connect w) = SysOk v ->
    handshake_accepted E w = true ->
    sys_ok (send_out E (S (n_send w))) = true ->
    recv_out E (S (n_recv w)) = RecvData (c0 :: c :: rest) ->
    (c = x00 ->
     fst (InterceptOnly.connect E fd addr len w) = 0
     /\ fst (DnsIntercept.connect E fd addr len w) = 0)
    /\ (c <> x00 ->
        (caller_view (InterceptOnly.connect E fd addr len w)
         = (-1, EHOSTUNREACH)
         /\ exists pre,
             trace (snd (InterceptOnly.connect E fd addr len w))
             = pre ++ [Stderr (RequestFailed c); Close fd])
        /\ (caller_view (DnsIntercept.connect E fd addr len w)
            = (-1, EHOSTUNREACH)
            /\ exists pre,
                trace (snd (DnsIntercept.connect E fd addr len w))
                = pre ++ [Stderr (DomainRequestFailed c); Close fd])).
Proof.
  intros E fd addr len w v c0 c rest Hfam Hav Hc Hacc Hs2 Hr2.
  assert (Htest : tested_byte E w = c).
  { unfold tested_byte. rewrite Hr2. reflexivity. }
  (* the literal form *)
  destruct (resolved_fields w) as [_ [Hs [Hr _]]].
  pose proof (reply_reached_io E fd addr (proxy_called fd (resolved w)) Hfam)
    as Hio.
  rewrite (handshake_accepted_same E (proxy_called fd (resolved w)) w Hs Hr)
    in Hio.
  rewrite (tested_byte_same E (proxy_called fd (resolved w)) w Hr) in Hio.
  change (n_send (proxy_called fd (resolved w))) with (n_send (resolved w))
    in Hio.
  rewrite Hs, Htest in Hio. specialize (Hio Hacc Hs2). cbv zeta in Hio.
  (* the name form *)
  destruct (inet_ntop4_accepted (sin_addr addr)) as [text [Htext Hname]].
  destruct (resolved_dns_fields E w Hav) as [_ [Hs' Hr']].
  pose proof (reply_reached_dns E fd text (ntohs (sin_port addr))
                                (proxy_called fd (resolved_dns E w)) Hname)
    as Hdns.
  rewrite (handshake_accepted_same E (proxy_called fd (resolved_dns E w)) w
                                   Hs' Hr') in Hdns.
  rewrite (tested_byte_same E (proxy_called fd (resolved_dns E w)) w Hr')
    in Hdns.
  change (n_send (proxy_called fd (resolved_dns E w)))
    with (n_send (resolved_dns E w)) in Hdns.
  rewrite Hs', Htest in Hdns. specialize (Hdns Hacc Hs2). cbv zeta in Hdns.
  rewrite (connect_run_io E fd addr len w Hav).
  rewrite (connect_run_dns E fd addr len w Hav). cbv zeta.
  rewrite Hfam. change (negb (AF_INET =? AF_INET)) with false. cbv iota.
  rewrite Hc, Htext.
  destruct Hio as [Hio Htio]. destruct Hdns as [Hdns Htdns].
  unfold reply_tail in Htio, Htdns.
  split.
  - intros ->.
    change (Byte.eqb x00 x00) with true in Hio, Hdns. cbv iota in Hio, Hdns.
    rewrite (conclude_success fd _ Hio), (conclude_success fd _ Hdns).
    split; reflexivity.
  - intros Hne. apply byte_eqb_neq in Hne. rewrite Hne in *.
    rewrite (conclude_failure fd _ Hio), (conclude_failure fd _ Hdns).
    split; (split; [reflexivity|]); cbn [snd]; autorewrite with world.
    + rewrite Htio. unfold proxy_called. autorewrite with world.
      rewrite <- !app_assoc. cbn [app].
      exists (trace (resolved w)
              ++ [Connect fd tor_addr sizeof_sockaddr_in;
                  Send fd socks5_initial_handshake; Recv fd 2;
                  Send fd (literal_request addr); Recv fd 10]).
      rewrite <- app_assoc. reflexivity.
    + rewrite Htdns. unfold proxy_called. autorewrite with world.
      rewrite <- !app_assoc. cbn [app].
      exists (trace (resolved_dns E w)
              ++ [Connect fd tor_addr sizeof_sockaddr_in;
                  Send fd socks5_initial_handshake; Recv fd 2;
                  Send fd (name_request text (ntohs (sin_port addr)));
                  Recv fd 10]).
      rewrite <- app_assoc. reflexivity.
Qed.

Lemma reply_code_zero_or_failure_witness :
  (caller_view (InterceptOnly.connect (reply_with_code x05) 3
                                      target_1_2_3_4_443 16 started)
   = (-1, EHOSTUNREACH)
   /\ caller_view (DnsIntercept.connect (reply_with_code x05) 3
                                        target_1_2_3_4_443 16 started)
      = (-1, EHOSTUNREACH))
  /\ (fst (InterceptOnly.connect (reply_with_code x00) 3
                                 target_1_2_3_4_443 16 started) = 0
      /\ fst (DnsIntercept.connect (reply_with_code x00) 3
                                   target_1_2_3_4_443 16 started) = 0).
Proof.
  split.
  - destruct (reply_code_zero_or_failure
                (reply_with_code x05) 3 target_1_2_3_4_443 16 started 0%N
                x05 x05 [x00; x01; x00; x00; x00; x00; x00; x00]
                eq_refl eq_refl eq_refl eq_refl eq_refl eq_refl)
      as [_ H].
    destruct H as [[H1 _] [H2 _]]; [discriminate|].
    split; [exact H1|exact H2].
  - destruct (reply_code_zero_or_failure
                (reply_with_code x00) 3 target_1_2_3_4_443 16 started 0%N
                x05 x00 [x00; x01; x00; x00; x00; x00; x00; x00]
                eq_refl eq_refl eq_refl eq_refl eq_refl eq_refl)
      as [H _].
    exact (H eq_refl).
Defined.

(** ** Reading the reply (claim C1) *)

(** The claim as stated fails: for a reply that declares an IPv6 bound
    address (22 bytes) or a name (18 bytes), the negotiation functions ask
    for 10 bytes in one read and for nothing more. *)
Lemma reply_read_is_fixed :
  (spec_reply_length ipv6_bound_reply = Some 22%nat
   /\ recv_sizes
        (trace (snd (InterceptOnly.perform_socks5_negotiation
                       (mock_proxy (RecvData [x05; x00])
                                   (RecvData ipv6_bound_reply))
                       3 target_1_2_3_4_443 started)))
      = [2%nat; 10%nat]
   /\ reply_bytes_asked
        (trace (snd (InterceptOnly.perform_socks5_negotiation
                       (mock_proxy (RecvData [x05; x00])
                                   (RecvData ipv6_bound_reply))
                       3 target_1_2_3_4_443 started)))
      <> 22%nat)
  /\ (spec_reply_length name_bound_reply = Some 18%nat
      /\ recv_sizes
           (trace (snd (DnsIntercept.perform_socks5_domain_negotiation
                          (mock_proxy (RecvData [x05; x00])
                                      (RecvData name_bound_reply))
                          3 (list_byte_of_string "example.com") 80 started)))
         = [2%nat; 10%nat]
      /\ reply_bytes_asked
           (trace (snd (DnsIntercept.perform_socks5_domain_negotiation
                          (mock_proxy (RecvData [x05; x00])
                                      (RecvData name_bound_reply))
                          3 (list_byte_of_string "example.com") 80 started)))
         <> 18%nat).
Proof. vm_compute. repeat split; discriminate. Qed.

Lemma recv_sizes_reply_reached (fd : Z) (req : list byte)
      (tail : list event) :
  (tail = [] \/ exists d, tail = [Stderr d]) ->
  recv_sizes ([Send fd socks5_initial_handshake; Recv fd 2;
               Send fd req; Recv fd 10] ++ tail)
  = [2%nat; 10%nat].
Proof. intros [-> | [d ->]]; reflexivity. Qed.

Lemma reply_tail_shape (msg : byte -> diag) (c : byte) :
  reply_tail msg c = [] \/ exists d, reply_tail msg c = [Stderr d].
Proof. unfold reply_tail. destruct (Byte.eqb c x00); eauto. Qed.

(** C1, amended.  Once the request has been sent, the reply is read by one
    [recv] of at most 10 bytes, whatever the reply holds; no header is read
    first and no remainder is sized by the bound-address type.  Of the bytes
    read, only the one at [buffer[1]] is looked at. *)
Theorem reply_read_once_ten_bytes :
  forall (E : env) (fd : Z) (t : sockaddr_in) (hostname : list byte)
         (port : Z) (w : world),
    sin_family t = AF_INET ->
    hostname_accepted hostname = true ->
    handshake_accepted E w = true ->
    sys_ok (send_out E (S (n_send w))) = true ->
    let reads (res : Z * world) :=
      (exists evs, trace (snd res) = trace w ++ evs
                   /\ recv_sizes evs = [2%nat; 10%nat])
      /\ (fst res = 0 <-> tested_byte E w = x00) in
    reads (InterceptOnly.perform_socks5_negotiation E fd t w)
    /\ reads (DnsIntercept.perform_socks5_domain_negotiation
                E fd hostname port w).
Proof.
  intros E fd t hostname port w Hfam Hname Hacc Hs2 reads. subst reads.
  cbv beta.
  destruct (reply_reached_io E fd t w Hfam Hacc Hs2) as [Hr1 Ht1].
  destruct (reply_reached_dns E fd hostname port w Hname Hacc Hs2)
    as [Hr2 Ht2].
  assert (Hcode : forall r : Z,
             r = (if Byte.eqb (tested_byte E w) x00 then 0 else -1) ->
             (r = 0 <-> tested_byte E w = x00)).
  { intros r ->. destruct (Byte.eqb (tested_byte E w) x00) eqn:Hb.
    - apply byte_eqb_eq in Hb. split; auto.
    - apply byte_eqb_neq in Hb. split; [discriminate|contradiction]. }
  split; (split; [|apply Hcode; assumption]).
  - eexists. split; [exact Ht1|].
    apply recv_sizes_reply_reached. apply reply_tail_shape.
  - eexists. split; [exact Ht2|].
    apply recv_sizes_reply_reached. apply reply_tail_shape.
Qed.

Lemma reply_read_once_ten_bytes_witness :
  hostname_accepted (list_byte_of_string "example.com") = true
  /\ ((exists evs,
          trace (snd (InterceptOnly.perform_socks5_negotiation
                        (mock_proxy (RecvData [x05; x00])
                                    (RecvData ipv6_bound_reply))
                        3 target_1_2_3_4_443 started))
          = trace started ++ evs
          /\ recv_sizes evs = [2%nat; 10%nat])
      /\ (fst (InterceptOnly.perform_socks5_negotiation
                 (mock_proxy (RecvData [x05; x00])
                             (RecvData ipv6_bound_reply))
                 3 target_1_2_3_4_443 started) = 0
          <-> tested_byte (mock_proxy (RecvData [x05; x00])
                                      (RecvData ipv6_bound_reply)) started
              = x00)).
Proof.
  split; [reflexivity|].
  apply (reply_read_once_ten_bytes
           (mock_proxy (RecvData [x05; x00]) (RecvData ipv6_bound_reply))
           3 target_1_2_3_4_443 (list_byte_of_string "example.com") 80
           started);
    reflexivity.
Defined.

(** ** The length of a name (claim C2) *)

Lemma Z_of_byte_of_Z (z : Z) : 0 <= z < 256 -> Z_of_byte (byte_of_Z z) = z.
Proof.
  intros Hz. unfold Z_of_byte, byte_of_Z.
  rewrite Z.mod_small by exact Hz.
  destruct (Byte.of_N (Z.to_N z)) as [b|] eqn:Hb.
  - apply Byte.to_of_N in Hb. rewrite Hb. apply Z2N.id. lia.
  - apply Byte.of_N_None_iff in Hb. lia.
Qed.

(** Scenario B of the specification: the request for example.com, port 80. *)
Lemma name_request_example_com :
  name_request (list_byte_of_string "example.com") 80
  = [x05; x01; x00; x03; x0b;
     x65; x78; x61; x6d; x70; x6c; x65; x2e; x63; x6f; x6d;
     x00; x50].
Proof. reflexivity. Qed.

(** The claim as stated fails: a name of 255 bytes is turned down after the
    handshake, nothing of a request being sent.  So is one of 249 bytes. *)
Lemma name_of_255_bytes_rejected :
  (strlen (repeat x61 255) = 255%nat
   /\ fst (DnsIntercept.perform_socks5_domain_negotiation
             scenario_A 3 (repeat x61 255) 80 started) = -1
   /\ trace (snd (DnsIntercept.perform_socks5_domain_negotiation
                    scenario_A 3 (repeat x61 255) 80 started))
      = [Send 3 [x05; x01; x00]; Recv 3 2; Stderr InvalidHostname])
  /\ (strlen (repeat x61 249) = 249%nat
      /\ fst (DnsIntercept.perform_socks5_domain_negotiation
                scenario_A 3 (repeat x61 249) 80 started) = -1
      /\ trace (snd (DnsIntercept.perform_socks5_domain_negotiation
                       scenario_A 3 (repeat x61 249) 80 started))
         = [Send 3 [x05; x01; x00]; Recv 3 2; Stderr InvalidHostname]).
Proof. vm_compute. repeat split. Qed.

(** C2, amended.  A name of length 0 and every name longer than 248 bytes
    (so 249 to 255, and 256) is turned down: the function returns -1, and
    after an accepted handshake it reports the name on [stderr] without
    sending a request.  After an accepted handshake every name of 1 to 248
    bytes is accepted and sent as 05 01 00 03, the length in one byte, the
    bytes of the name, and the port in network order. *)
Theorem hostname_length_window :
  forall (E : env) (fd : Z) (hostname : list byte) (port : Z) (w : world),
    let res := DnsIntercept.perform_socks5_domain_negotiation
                 E fd hostname port w in
    ((strlen hostname = 0 \/ 248 < strlen hostname)%nat ->
     fst res = -1
     /\ (handshake_accepted E w = true ->
         trace (snd res)
         = trace w ++ [Send fd [x05; x01; x00]; Recv fd 2;
                       Stderr InvalidHostname]))
    /\ ((1 <= strlen hostname <= 248)%nat ->
        handshake_accepted E w = true ->
        Z_of_byte (byte_of_Z (Z.of_nat (strlen hostname)))
        = Z.of_nat (strlen hostname)
        /\ exists evs,
            trace (snd res)
            = trace w
              ++ Send fd [x05; x01; x00] :: Recv fd 2
              :: Send fd ([x05; x01; x00; x03;
                           byte_of_Z (Z.of_nat (strlen hostname))]
                          ++ firstn (strlen hostname) hostname
                          ++ net16_bytes (htons port))
              :: evs).
Proof.
  intros E fd hostname port w res. subst res.
  split.
  - intros Hlen.
    assert (Hbad : (strlen hostname =? 0)%nat || (248 <? strlen hostname)%nat
                   = true).
    { apply orb_true_iff. destruct Hlen as [H|H].
      - left. apply Nat.eqb_eq. exact H.
      - right. apply Nat.ltb_lt. exact H. }
    split.
    + pose proof (negotiation_outcome_dns E fd hostname port w) as H.
      cbv zeta in H. unfold hostname_accepted in H.
      rewrite Hbad, andb_false_r in H. apply H.
    + intros Hacc.
      rewrite (negotiation_run_dns E fd hostname port w). cbv zeta.
      destruct (handshake_accepted_inv E w Hacc) as [v [d [Hs Hr]]].
      rewrite Hs, Hr, Hacc, Hbad. world_fields. reflexivity.
  - intros [Hlo Hhi] Hacc.
    rewrite (negotiation_run_dns E fd hostname port w). cbv zeta.
    destruct (handshake_accepted_inv E w Hacc) as [v [d [Hs Hr]]].
    rewrite Hs, Hr, Hacc.
    assert (Hgood : (strlen hostname =? 0)%nat || (248 <? strlen hostname)%nat
                    = false).
    { apply orb_false_iff. split.
      - apply Nat.eqb_neq. lia.
      - apply Nat.ltb_ge. lia. }
    rewrite Hgood. split; [apply Z_of_byte_of_Z; lia|].
    fold (name_request hostname port).
    destruct (send_out E (S (n_send w))) as [v2|e2].
    + destruct (recv_out E (S (n_recv w))) as [e3|d3];
        [|destruct (Byte.eqb (tested_byte E w) x00)];
        eexists; world_fields; reflexivity.
    + eexists; world_fields; reflexivity.
Qed.

Lemma hostname_length_window_witness :
  handshake_accepted scenario_A started = true
  /\ Z_of_byte (byte_of_Z (Z.of_nat
                             (strlen (list_byte_of_string "example.com"))))
     = 11
  /\ exists evs,
      trace (snd (DnsIntercept.perform_socks5_domain_negotiation
                    scenario_A 3 (list_byte_of_string "example.com") 80
                    started))
      = trace started
        ++ Send 3 [x05; x01; x00] :: Recv 3 2
        :: Send 3 [x05; x01; x00; x03; x0b;
                   x65; x78; x61; x6d; x70; x6c; x65; x2e; x63; x6f; x6d;
                   x00; x50]
        :: evs.
Proof.
  split; [reflexivity|].
  apply (proj2 (hostname_length_window
                  scenario_A 3 (list_byte_of_string "example.com") 80
                  started)).
  - cbn. lia.
  - reflexivity.
Defined.

(** ** Short and failed reads of the reply (claim C3) *)

(** C3, on the code.  A read of the reply that delivers only two bytes,
    05 00, is taken for a full successful reply: [connect] returns 0.  After
    a failed read the test [bytes_read < 0] on the unsigned [bytes_read]
    does not fire and [buffer[1]] is still examined: it holds the command
    byte 01 of the request, which is reported as the reply code. *)
Theorem short_reply_taken_for_success :
  (fst (InterceptOnly.connect short_reply_proxy 3 target_1_2_3_4_443 16
                              started) = 0
   /\ fst (One.connect short_reply_proxy 3 target_1_2_3_4_443 16 started) = 0
   /\ trace (snd (InterceptOnly.connect short_reply_proxy 3
                                        target_1_2_3_4_443 16 started))
      = [Connect 3 tor_addr 16; Send 3 [x05; x01; x00]; Recv 3 2;
         Send 3 [x05; x01; x00; x01; x01; x02; x03; x04; x01; xbb];
         Recv 3 10])
  /\ (forall r : Z, (size_t_of r <? 0) = false)
  /\ trace (snd (InterceptOnly.connect reset_proxy 3 target_1_2_3_4_443 16
                                       started))
     = [Connect 3 tor_addr 16; Send 3 [x05; x01; x00]; Recv 3 2;
        Send 3 [x05; x01; x00; x01; x01; x02; x03; x04; x01; xbb];
        Recv 3 10; Stderr (RequestFailed x01); Close 3].
Proof.
  split; [vm_compute; repeat split|].
  split; [exact size_t_of_not_negative|].
  vm_compute. reflexivity.
Qed.

(** ** The name given to the resolver (claim C5) *)

(** C5, on the code.  The application resolves example.com through the
    intercepted [gethostbyname] and connects to the address it got,
    93.184.216.34 port 80.  The wrapper kept nothing of the name: the
    request carries the text of the address, not example.com. *)
Theorem resolved_name_not_carried :
  let looked_up := DnsIntercept.gethostbyname resolving_world example_com
                                              started in
  let out := DnsIntercept.connect resolving_world 3 address_93_184_216_34_80
                                  16 (snd looked_up) in
  fst looked_up = Some (mkHostent example_com [(x5d, xb8, xd8, x22)])
  /\ fst out = 0
  /\ trace (snd out)
     = [Gethostbyname example_com;
        Connect 3 tor_addr 16;
        Send 3 [x05; x01; x00];
        Recv 3 2;
        Send 3 (name_request (list_byte_of_string "93.184.216.34") 80);
        Recv 3 10]
  /\ name_request (list_byte_of_string "93.184.216.34") 80
     <> name_request example_com 80.
Proof. vm_compute. repeat split. discriminate. Qed.

(** * Further properties *)

(** ** Everything [connect] can add to the trace *)

Lemma passthrough_trace (E : env) (fd : Z) (addr : sockaddr_in) (len : Z)
      (w0 : world) :
  trace (snd (call_real_connect E fd addr len w0))
  = trace w0 ++ [Connect fd addr len].
Proof.
  unfold call_real_connect, sys_result.
  destruct (connect_out E (n_connect w0)); reflexivity.
Qed.

Lemma family_test (addr : sockaddr_in) :
  negb (sin_family addr =? AF_INET) = false -> sin_family addr = AF_INET.
Proof. intros H. apply negb_false_iff in H. apply Z.eqb_eq. exact H. Qed.

Lemma connect_shape_io (E : env) (fd : Z) (addr : sockaddr_in) (len : Z)
      (w : world) :
  exists evs,
    trace (snd (InterceptOnly.connect E fd addr len w)) = trace w ++ evs
    /\ connect_shape fd [Connect fd addr len] (literal_request addr)
                     (RequestFailed (tested_byte E w)) evs.
Proof.
  unfold connect_shape.
  destruct (available E w) eqn:Hav.
  - destruct (resolved_fields w) as [Htr _].
    destruct (negb (sin_family addr =? AF_INET)) eqn:Hfam.
    + rewrite (connect_run_io E fd addr len w Hav). cbv zeta. rewrite Hfam.
      rewrite passthrough_trace, Htr.
      eexists. split; [reflexivity|]. exists []. split; [auto|].
      right. left. reflexivity.
    + destruct (connect_out E (n_connect w)) as [v|e] eqn:Hc.
      * pose proof (redirect_outcome_io E fd addr len w v (family_test addr Hfam)
                                        Hav Hc) as H.
        cbv zeta in H.
        destruct (negotiation_succeeds E w).
        { destruct H as [_ Ht]. eexists. split; [exact Ht|].
          exists []. split; [auto|]. do 3 right. left. reflexivity. }
        { destruct H as [_ [_ [fevs [Ht Hf]]]]. eexists. split; [exact Ht|].
          exists []. split; [auto|]. do 4 right. exists fevs. auto. }
      * rewrite (connect_run_io E fd addr len w Hav). cbv zeta.
        rewrite Hfam, Hc. world_fields. rewrite Htr.
        eexists. split; [reflexivity|]. exists []. split; [auto|].
        do 2 right. left. reflexivity.
  - destruct (connect_unavailable E fd addr len w Hav) as [_ [[_ [_ H]] _]].
    eexists. split; [exact H|]. exists []. split; [auto|]. left. reflexivity.
Qed.

Lemma connect_shape_one (E : env) (fd : Z) (addr : sockaddr_in) (len : Z)
      (w : world) :
  exists evs,
    trace (snd (One.connect E fd addr len w)) = trace w ++ evs
    /\ connect_shape fd [] (literal_request addr)
                     (RequestFailed (tested_byte E w)) evs.
Proof.
  unfold connect_shape.
  destruct (available E w) eqn:Hav.
  - destruct (resolved_fields w) as [Htr _].
    destruct (negb (sin_family addr =? AF_INET)) eqn:Hfam.
    + rewrite (connect_run_one E fd addr len w Hav). cbv zeta. rewrite Hfam.
      world_fields. rewrite Htr.
      exists []. split; [rewrite app_nil_r; reflexivity|].
      exists []. split; [auto|]. right. left. reflexivity.
    + destruct (connect_out E (n_connect w)) as [v|e] eqn:Hc.
      * pose proof (redirect_outcome_one E fd addr len w v
                                         (family_test addr Hfam) Hav Hc) as H.
        cbv zeta in H.
        destruct (negotiation_succeeds E w).
        { destruct H as [_ Ht]. eexists. split; [exact Ht|].
          exists []. split; [auto|]. do 3 right. left. reflexivity. }
        { destruct H as [_ [_ [fevs [Ht Hf]]]]. eexists. split; [exact Ht|].
          exists []. split; [auto|]. do 4 right. exists fevs. auto. }
      * rewrite (connect_run_one E fd addr len w Hav). cbv zeta.
        rewrite Hfam, Hc. world_fields. rewrite Htr.
        eexists. split; [reflexivity|]. exists []. split; [auto|].
        do 2 right. left. reflexivity.
  - destruct (connect_unavailable E fd addr len w Hav) as [[_ [_ H]] _].
    eexists. split; [exact H|]. exists []. split; [auto|]. left. reflexivity.
Qed.

Lemma connect_shape_dns (E : env) (fd : Z) (addr : sockaddr_in) (len : Z)
      (w : world) :
  exists evs text,
    inet_ntop4 (sin_addr addr) NI_MAXHOST = Some text
    /\ trace (snd (DnsIntercept.connect E fd addr len w)) = trace w ++ evs
    /\ connect_shape fd [Connect fd addr len]
                     (name_request text (ntohs (sin_port addr)))
                     (DomainRequestFailed (tested_byte E w)) evs.
Proof.
  unfold connect_shape.
  destruct (inet_ntop4_accepted (sin_addr addr)) as [text [Htext _]].
  destruct (available E w) eqn:Hav.
  - destruct (resolved_dns_fields E w Hav) as [[pre [Htr Hpre]] _].
    destruct (negb (sin_family addr =? AF_INET)) eqn:Hfam.
    + rewrite (connect_run_dns E fd addr len w Hav). cbv zeta. rewrite Hfam.
      rewrite passthrough_trace, Htr, <- app_assoc.
      eexists. exists text. split; [exact Htext|]. split; [reflexivity|].
      exists pre. split; [exact Hpre|]. right. left. reflexivity.
    + destruct (connect_out E (n_connect w)) as [v|e] eqn:Hc.
      * pose proof (redirect_outcome_dns E fd addr len w v
                                         (family_test addr Hfam) Hav Hc) as H.
        cbv zeta in H. destruct H as [text' [pre' [Htext' [Hpre' H]]]].
        rewrite Htext in Htext'. injection Htext' as <-.
        destruct (negotiation_succeeds E w).
        { destruct H as [_ Ht]. rewrite <- app_assoc in Ht.
          eexists. exists text. split; [exact Htext|]. split; [exact Ht|].
          exists pre'. split; [exact Hpre'|]. do 3 right. left. reflexivity. }
        { destruct H as [_ [_ [fevs [Ht Hf]]]]. rewrite <- app_assoc in Ht.
          eexists. exists text. split; [exact Htext|]. split; [exact Ht|].
          exists pre'. split; [exact Hpre'|]. do 4 right. exists fevs. auto. }
      * rewrite (connect_run_dns E fd addr len w Hav). cbv zeta.
        rewrite Hfam, Hc. world_fields. rewrite Htr, <- app_assoc.
        eexists. exists text. split; [exact Htext|]. split; [reflexivity|].
        exists pre. split; [exact Hpre|]. do 2 right. left. reflexivity.
  - destruct (connect_unavailable E fd addr len w Hav)
      as [_ [_ [_ [_ [evs [H Hevs]]]]]].
    eexists. exists text. split; [exact Htext|]. split; [exact H|].
    exists evs. split; [exact Hevs|]. left. reflexivity.
Qed.

Lemma connect_shape_within_budget (fd : Z) (direct : list event)
      (req : list byte) (msg : diag) (evs : list event) :
  (direct = [] \/ exists a l, direct = [Connect fd a l]) ->
  is_unreachable_message (Stderr msg) = false ->
  connect_shape fd direct req msg evs ->
  within_budget fd evs = true.
Proof.
  intros Hdirect Hmsg [pre [Hpre H]]. cbn in Hmsg.
  unfold within_budget, count, failure_events in *.
  destruct Hpre as [-> | ->];
    destruct Hdirect as [-> | [a [l ->]]];
    destruct H as [-> | [-> | [-> | [-> | [fevs [Hf ->]]]]]];
    try destruct Hf as [-> | [-> | [-> | ->]]];
    cbn; rewrite ?Z.eqb_refl; cbn; rewrite ?Hmsg; reflexivity.
Qed.

Lemma connect_within_budget (E : env) (fd : Z) (addr : sockaddr_in) (len : Z)
      (w : world) :
  (exists evs, trace (snd (One.connect E fd addr len w)) = trace w ++ evs
               /\ within_budget fd evs = true)
  /\ (exists evs,
         trace (snd (InterceptOnly.connect E fd addr len w)) = trace w ++ evs
         /\ within_budget fd evs = true)
  /\ (exists evs,
         trace (snd (DnsIntercept.connect E fd addr len w)) = trace w ++ evs
         /\ within_budget fd evs = true).
Proof.
  split; [|split].
  - destruct (connect_shape_one E fd addr len w) as [evs [Ht Hs]].
    exists evs. split; [exact Ht|].
    apply (connect_shape_within_budget
             fd [] (literal_request addr) (RequestFailed (tested_byte E w))
             evs (or_introl eq_refl) eq_refl Hs).
  - destruct (connect_shape_io E fd addr len w) as [evs [Ht Hs]].
    exists evs. split; [exact Ht|].
    refine (connect_shape_within_budget
              fd [Connect fd addr len] (literal_request addr)
              (RequestFailed (tested_byte E w)) evs _ eq_refl Hs).
    right. eauto.
  - destruct (connect_shape_dns E fd addr len w) as [evs [text [_ [Ht Hs]]]].
    exists evs. split; [exact Ht|].
    refine (connect_shape_within_budget
              fd [Connect fd addr len]
              (name_request text (ntohs (sin_port addr)))
              (DomainRequestFailed (tested_byte E w)) evs _ eq_refl Hs).
    right. eauto.
Qed.

Lemma within_budget_parts (fd : Z) (evs : list event) :
  within_budget fd evs = true ->
  forallb (concerns fd) evs = true
  /\ ((count is_connect evs <= 1)%nat
      /\ (count is_send evs <= 2)%nat
      /\ (count is_recv evs <= 2)%nat
      /\ (count (is_close fd) evs <= 1)%nat)
  /\ existsb is_unreachable_message evs = false.
Proof.
  unfold within_budget. intros H.
  repeat (apply andb_true_iff in H; destruct H as [H ?]).
  repeat split; try (apply Nat.leb_le; assumption); try assumption.
  apply negb_true_iff. assumption.
Qed.

(** ** The lookup of the real [connect] *)

(** X1.  When the pointer to the real [connect] is not set and [dlsym] does
    not find it, [connect] of each file returns -1 with [errno] set to
    [EFAULT], for every address family, and makes no system call: the
    trace grows by the messages of the lookup only.  The pointer stays
    unset, so the next call looks the symbol up again. *)
Theorem connect_without_real_connect :
  forall (E : env) (fd : Z) (addr : sockaddr_in) (len : Z) (w : world),
    available E w = false ->
    let failed (out : Z * world) (msgs : list event) :=
      fst out = -1
      /\ errno (snd out) = EFAULT
      /\ real_connect (snd out) = false
      /\ trace (snd out) = trace w ++ Stderr NoRealConnect :: msgs in
    failed (One.connect E fd addr len w) []
    /\ failed (InterceptOnly.connect E fd addr len w) []
    /\ failed (DnsIntercept.connect E fd addr len w)
              (if dlsym_next E "gethostbyname" then []
               else [Stderr NoRealGethostbyname]).
Proof.
  intros E fd addr len w Hav failed. subst failed. cbv beta.
  unfold available in Hav.
  apply orb_false_iff in Hav. destruct Hav as [Hrc Hdl].
  unfold One.connect, One.init_dlsym, InterceptOnly.connect,
    InterceptOnly.init_dlsym, DnsIntercept.connect, DnsIntercept.init_dlsym,
    bind, real_connect_set.
  rewrite Hrc, Hdl.
  split; [cbn; auto|]. split; [cbn; auto|].
  destruct (dlsym_next E "gethostbyname"); cbn;
    repeat (split; [reflexivity|]).
  - reflexivity.
  - rewrite <- app_assoc. reflexivity.
Qed.

Lemma connect_without_real_connect_witness :
  available nothing_found unloaded = false
  /\ fst (InterceptOnly.connect nothing_found 3 target_1_2_3_4_443 16
                                unloaded) = -1
  /\ errno (snd (InterceptOnly.connect nothing_found 3 target_1_2_3_4_443 16
                                       unloaded)) = EFAULT
  /\ real_connect (snd (InterceptOnly.connect
                          nothing_found 3 target_1_2_3_4_443 16 unloaded))
     = false
  /\ trace (snd (InterceptOnly.connect nothing_found 3 target_1_2_3_4_443 16
                                       unloaded))
     = trace unloaded ++ [Stderr NoRealConnect].
Proof.
  split; [reflexivity|].
  apply (connect_without_real_connect
           nothing_found 3 target_1_2_3_4_443 16 unloaded).
  reflexivity.
Defined.

(** ** What [connect] never does *)

(** X2.  Whatever the environment, the address and the state of the
    process, every call that [connect] of the three files makes is a call
    on the descriptor it was given: it connects, sends, receives and closes
    no other descriptor and never calls the resolver. *)
Theorem connect_touches_only_its_socket :
  forall (E : env) (fd : Z) (addr : sockaddr_in) (len : Z) (w : world),
    let own (out : Z * world) :=
      exists evs, trace (snd out) = trace w ++ evs
                  /\ forallb (concerns fd) evs = true in
    own (One.connect E fd addr len w)
    /\ own (InterceptOnly.connect E fd addr len w)
    /\ own (DnsIntercept.connect E fd addr len w).
Proof.
  intros E fd addr len w own. subst own. cbv beta.
  destruct (connect_within_budget E fd addr len w)
    as [[e1 [T1 B1]] [[e2 [T2 B2]] [e3 [T3 B3]]]].
  split; [|split].
  - exists e1. split; [exact T1|]. apply (within_budget_parts fd e1 B1).
  - exists e2. split; [exact T2|]. apply (within_budget_parts fd e2 B2).
  - exists e3. split; [exact T3|]. apply (within_budget_parts fd e3 B3).
Qed.

(** X3.  One call of [connect] makes at most one call of the real
    [connect], at most two of [send], at most two of [recv] and at most one
    of [close]: nothing is sent again, read again or retried, whatever the
    proxy answers. *)
Theorem connect_call_budget :
  forall (E : env) (fd : Z) (addr : sockaddr_in) (len : Z) (w : world),
    let bounded (out : Z * world) :=
      exists evs, trace (snd out) = trace w ++ evs
                  /\ (count is_connect evs <= 1)%nat
                  /\ (count is_send evs <= 2)%nat
                  /\ (count is_recv evs <= 2)%nat
                  /\ (count (is_close fd) evs <= 1)%nat in
    bounded (One.connect E fd addr len w)
    /\ bounded (InterceptOnly.connect E fd addr len w)
    /\ bounded (DnsIntercept.connect E fd addr len w).
Proof.
  intros E fd addr len w bounded. subst bounded. cbv beta.
  destruct (connect_within_budget E fd addr len w)
    as [[e1 [T1 B1]] [[e2 [T2 B2]] [e3 [T3 B3]]]].
  split; [|split].
  - exists e1. split; [exact T1|]. apply (within_budget_parts fd e1 B1).
  - exists e2. split; [exact T2|]. apply (within_budget_parts fd e2 B2).
  - exists e3. split; [exact T3|]. apply (within_budget_parts fd e3 B3).
Qed.

(** X4.  Three branches are out of reach of [connect]: the family test
    inside [perform_socks5_negotiation] (its message "Only IPv4 targets"),
    the length test of the name and the failure of [inet_ntop] in
    [ConnectWithDNSInterception.c].  None of their messages is ever
    written by a call of [connect]. *)
Theorem connect_unreachable_branches :
  forall (E : env) (fd : Z) (addr : sockaddr_in) (len : Z) (w : world),
    let silent (out : Z * world) :=
      exists evs, trace (snd out) = trace w ++ evs
                  /\ existsb is_unreachable_message evs = false in
    silent (One.connect E fd addr len w)
    /\ silent (InterceptOnly.connect E fd addr len w)
    /\ silent (DnsIntercept.connect E fd addr len w).
Proof.
  intros E fd addr len w silent. subst silent. cbv beta.
  destruct (connect_within_budget E fd addr len w)
    as [[e1 [T1 B1]] [[e2 [T2 B2]] [e3 [T3 B3]]]].
  split; [|split].
  - exists e1. split; [exact T1|]. apply (within_budget_parts fd e1 B1).
  - exists e2. split; [exact T2|]. apply (within_budget_parts fd e2 B2).
  - exists e3. split; [exact T3|]. apply (within_budget_parts fd e3 B3).
Qed.

(** ** The intercepted [gethostbyname] *)


(** ** The result of a redirected [connect] *)

(** X6.  For an IPv4 destination, once the socket is connected to the
    proxy, [connect] of each file returns 0 exactly when the negotiation
    succeeds and -1 otherwise; when it returns 0 the socket has not been
    closed. *)
Theorem connect_result :
  forall (E : env) (fd : Z) (addr : sockaddr_in) (len : Z) (w : world) (v : N),
    sin_family addr = AF_INET ->
    available E w = true ->
    connect_out E (n_connect w) = SysOk v ->
    let decided (out : Z * world) :=
      (fst out = 0 <-> negotiation_succeeds E w = true)
      /\ (fst out = 0 \/ fst out = -1)
      /\ exists evs, trace (snd out) = trace w ++ evs
                     /\ (fst out = 0 -> existsb (is_close fd) evs = false) in
    decided (One.connect E fd addr len w)
    /\ decided (InterceptOnly.connect E fd addr len w)
    /\ decided (DnsIntercept.connect E fd addr len w).
Proof.
  intros E fd addr len w v Hfam Hav Hc decided. subst decided. cbv beta.
  pose proof (redirect_outcome_one E fd addr len w v Hfam Hav Hc) as H1.
  pose proof (redirect_outcome_io E fd addr len w v Hfam Hav Hc) as H2.
  pose proof (redirect_outcome_dns E fd addr len w v Hfam Hav Hc) as H3.
  cbv zeta in H1, H2, H3.
  destruct H3 as [text [pre [_ [Hpre H3]]]].
  destruct (negotiation_succeeds E w).
  - destruct H1 as [R1 T1], H2 as [R2 T2], H3 as [R3 T3].
    rewrite <- app_assoc in T3.
    split; [|split];
      (split; [split; auto|]; split; [left; assumption|]).
    + eexists. split; [exact T1|]. intros _. cbn. reflexivity.
    + eexists. split; [exact T2|]. intros _. cbn. reflexivity.
    + eexists. split; [exact T3|]. intros _.
      destruct Hpre as [-> | ->]; reflexivity.
  - destruct H1 as [R1 [_ [e1 [T1 _]]]], H2 as [R2 [_ [e2 [T2 _]]]],
             H3 as [R3 [_ [e3 [T3 _]]]].
    rewrite <- app_assoc in T3.
    split; [|split];
      (split; [split; [intros H0; rewrite H0 in *; discriminate|discriminate]|];
       split; [right; assumption|]).
    + eexists. split; [exact T1|]. intros H0. rewrite H0 in R1. discriminate.
    + eexists. split; [exact T2|]. intros H0. rewrite H0 in R2. discriminate.
    + eexists. split; [exact T3|]. intros H0. rewrite H0 in R3. discriminate.
Qed.

Lemma connect_result_witness :
  (fst (InterceptOnly.connect scenario_A 3 target_1_2_3_4_443 16 started) = 0
   <-> negotiation_succeeds scenario_A started = true)
  /\ (fst (InterceptOnly.connect scenario_A 3 target_1_2_3_4_443 16 started)
      = 0
      \/ fst (InterceptOnly.connect scenario_A 3 target_1_2_3_4_443 16
                                    started) = -1)
  /\ exists evs,
      trace (snd (InterceptOnly.connect scenario_A 3 target_1_2_3_4_443 16
                                        started))
      = trace started ++ evs
      /\ (fst (InterceptOnly.connect scenario_A 3 target_1_2_3_4_443 16
                                     started) = 0 ->
          existsb (is_close 3) evs = false).
Proof.
  apply (connect_result scenario_A 3 target_1_2_3_4_443 16 started 0%N);
    reflexivity.
Defined.

(** X7.  The count that [send] reports is not looked at: whatever the two
    calls of [send] return, be it 0, as long as it is not negative, the
    negotiation goes on as if the whole message had gone out, and each
    message is sent once only. *)
Theorem send_count_ignored :
  forall (E : env) (fd : Z) (addr : sockaddr_in) (len : Z) (w : world)
         (v v1 v2 : N) (d : list byte),
    sin_family addr = AF_INET ->
    available E w = true ->
    connect_out E (n_connect w) = SysOk v ->
    send_out E (n_send w) = SysOk v1 ->
    send_out E (S (n_send w)) = SysOk v2 ->
    recv_out E (n_recv w) = RecvData (x05 :: x00 :: d) ->
    tested_byte E w = x00 ->
    let sent_once (out : Z * world) :=
      fst out = 0
      /\ exists evs, trace (snd out) = trace w ++ evs
                     /\ count is_send evs = 2%nat in
    sent_once (One.connect E fd addr len w)
    /\ sent_once (InterceptOnly.connect E fd addr len w)
    /\ sent_once (DnsIntercept.connect E fd addr len w).
Proof.
  intros E fd addr len w v v1 v2 d Hfam Hav Hc Hs1 Hs2 Hr1 Ht sent_once.
  subst sent_once. cbv beta.
  assert (Hok : negotiation_succeeds E w = true).
  { unfold negotiation_succeeds, handshake_accepted.
    rewrite Hs1, Hs2, Hr1, Ht. reflexivity. }
  pose proof (redirect_outcome_one E fd addr len w v Hfam Hav Hc) as H1.
  pose proof (redirect_outcome_io E fd addr len w v Hfam Hav Hc) as H2.
  pose proof (redirect_outcome_dns E fd addr len w v Hfam Hav Hc) as H3.
  cbv zeta in H1, H2, H3.
  destruct H3 as [text [pre [_ [Hpre H3]]]].
  rewrite Hok in H1, H2, H3.
  destruct H1 as [R1 T1], H2 as [R2 T2], H3 as [R3 T3].
  rewrite <- app_assoc in T3.
  split; [|split]; (split; [assumption|]).
  - eexists. split; [exact T1|]. reflexivity.
  - eexists. split; [exact T2|]. reflexivity.
  - eexists. split; [exact T3|]. destruct Hpre as [-> | ->]; reflexivity.
Qed.

Lemma send_count_ignored_witness :
  send_out zero_send_proxy (n_send started) = SysOk 0
  /\ fst (InterceptOnly.connect zero_send_proxy 3 target_1_2_3_4_443 16
                                started) = 0
  /\ exists evs,
      trace (snd (InterceptOnly.connect zero_send_proxy 3 target_1_2_3_4_443
                                        16 started))
      = trace started ++ evs
      /\ count is_send evs = 2%nat.
Proof.
  split; [reflexivity|].
  apply (send_count_ignored zero_send_proxy 3 target_1_2_3_4_443 16 started
                            0%N 0%N 0%N []);
    reflexivity.
Defined.

(** ** Where a negotiation stops *)

Lemma negotiation_stops_io (E : env) (fd : Z) (t : sockaddr_in) (w : world) :
  sin_family t = AF_INET ->
  let res := InterceptOnly.perform_socks5_negotiation E fd t w in
  (forall e, send_out E (n_send w) = SysErr e ->
             fst res = -1 /\ errno (snd res) = e
             /\ trace (snd res) = trace w ++ [Send fd [x05; x01; x00]])
  /\ (sys_ok (send_out E (n_send w)) = true ->
      handshake_accepted E w = false ->
      fst res = -1
      /\ trace (snd res)
         = trace w ++ [Send fd [x05; x01; x00]; Recv fd 2;
                       Stderr HandshakeFailed])
  /\ (handshake_accepted E w = true ->
      forall e, send_out E (S (n_send w)) = SysErr e ->
                fst res = -1 /\ errno (snd res) = e
                /\ trace (snd res)
                   = trace w ++ [Send fd [x05; x01; x00]; Recv fd 2;
                                 Send fd (literal_request t)]).
Proof.
  intros Hfam res. subst res.
  rewrite (negotiation_run_io E fd t w Hfam). cbv zeta.
  split; [|split].
  - intros e ->. repeat split; try (world_fields; reflexivity).
  - intros Hs Hacc. rewrite Hacc.
    destruct (send_out E (n_send w)) as [v|e]; [|discriminate Hs].
    destruct (recv_out E (n_recv w)) as [e|d];
      (split; [reflexivity|]); world_fields; reflexivity.
  - intros Hacc e Hs2.
    destruct (handshake_accepted_inv E w Hacc) as [v [d [Hs Hr]]].
    rewrite Hs, Hr, Hacc, Hs2.
    repeat split; try (world_fields; reflexivity).
Qed.

Lemma negotiation_stops_dns (E : env) (fd : Z) (hostname : list byte)
      (port : Z) (w : world) :
  hostname_accepted hostname = true ->
  let res := DnsIntercept.perform_socks5_domain_negotiation
               E fd hostname port w in
  (forall e, send_out E (n_send w) = SysErr e ->
             fst res = -1 /\ errno (snd res) = e
             /\ trace (snd res) = trace w ++ [Send fd [x05; x01; x00]])
  /\ (sys_ok (send_out E (n_send w)) = true ->
      handshake_accepted E w = false ->
      fst res = -1
      /\ trace (snd res)
         = trace w ++ [Send fd [x05; x01; x00]; Recv fd 2;
                       Stderr HandshakeFailed])
  /\ (handshake_accepted E w = true ->
      forall e, send_out E (S (n_send w)) = SysErr e ->
                fst res = -1 /\ errno (snd res) = e
                /\ trace (snd res)
                   = trace w ++ [Send fd [x05; x01; x00]; Recv fd 2;
                                 Send fd (name_request hostname port)]).
Proof.
  intros Hname res. subst res.
  rewrite (negotiation_run_dns E fd hostname port w). cbv zeta.
  unfold hostname_accepted in Hname. apply negb_true_iff in Hname.
  split; [|split].
  - intros e ->. repeat split; try (world_fields; reflexivity).
  - intros Hs Hacc. rewrite Hacc.
    destruct (send_out E (n_send w)) as [v|e]; [|discriminate Hs].
    destruct (recv_out E (n_recv w)) as [e|d];
      (split; [reflexivity|]); world_fields; reflexivity.
  - intros Hacc e Hs2.
    destruct (handshake_accepted_inv E w Hacc) as [v [d [Hs Hr]]].
    rewrite Hs, Hr, Hacc, Hname, Hs2.
    repeat split; try (world_fields; reflexivity).
Qed.

(** X8.  A negotiation stops at the step that fails, in the three
    negotiation functions alike.  When the send of the handshake fails,
    nothing is read; when the handshake is not accepted, no request is
    sent; when the send of the request fails, no reply is read.  After a
    failed send [errno] is the error of that send. *)
Theorem negotiation_stops_at_failure :
  forall (E : env) (fd : Z) (t : sockaddr_in) (hostname : list byte)
         (port : Z) (w : world),
    sin_family t = AF_INET ->
    hostname_accepted hostname = true ->
    let stops (res : Z * world) (req : list byte) :=
      (forall e, send_out E (n_send w) = SysErr e ->
                 fst res = -1 /\ errno (snd res) = e
                 /\ trace (snd res) = trace w ++ [Send fd [x05; x01; x00]])
      /\ (sys_ok (send_out E (n_send w)) = true ->
          handshake_accepted E w = false ->
          fst res = -1
          /\ trace (snd res)
             = trace w ++ [Send fd [x05; x01; x00]; Recv fd 2;
                           Stderr HandshakeFailed])
      /\ (handshake_accepted E w = true ->
          forall e, send_out E (S (n_send w)) = SysErr e ->
                    fst res = -1 /\ errno (snd res) = e
                    /\ trace (snd res)
                       = trace w ++ [Send fd [x05; x01; x00]; Recv fd 2;
                                     Send fd req]) in
    stops (One.perform_socks5_negotiation E fd t w) (literal_request t)
    /\ stops (InterceptOnly.perform_socks5_negotiation E fd t w)
             (literal_request t)
    /\ stops (DnsIntercept.perform_socks5_domain_negotiation
                E fd hostname port w)
             (name_request hostname port).
Proof.
  intros E fd t hostname port w Hfam Hname stops. subst stops. cbv beta.
  rewrite one_negotiation_same.
  split; [|split].
  - exact (negotiation_stops_io E fd t w Hfam).
  - exact (negotiation_stops_io E fd t w Hfam).
  - exact (negotiation_stops_dns E fd hostname port w Hname).
Qed.

Lemma negotiation_stops_at_failure_witness :
  handshake_accepted broken_pipe_proxy started = true
  /\ fst (InterceptOnly.perform_socks5_negotiation
            broken_pipe_proxy 3 target_1_2_3_4_443 started) = -1
  /\ errno (snd (InterceptOnly.perform_socks5_negotiation
                   broken_pipe_proxy 3 target_1_2_3_4_443 started)) = 32
  /\ trace (snd (InterceptOnly.perform_socks5_negotiation
                   broken_pipe_proxy 3 target_1_2_3_4_443 started))
     = trace started
       ++ [Send 3 [x05; x01; x00]; Recv 3 2;
           Send 3 (literal_request target_1_2_3_4_443)].
Proof.
  split; [reflexivity|].
  apply (negotiation_stops_at_failure
           broken_pipe_proxy 3 target_1_2_3_4_443
           (list_byte_of_string "example.com") 80 started eq_refl eq_refl);
    reflexivity.
Defined.

(** ** The family test inside the negotiation *)

(** X9.  Called with a target that is not [AF_INET],
    [perform_socks5_negotiation] of [1.c] and of
    [ConnetcInterceptionOnly.c] returns -1 and sends no request; but the
    test comes after the handshake, so the handshake message has gone to
    the proxy all the same, and after an accepted handshake the refusal is
    reported on [stderr]. *)
Theorem negotiation_refuses_other_families :
  forall (E : env) (fd : Z) (t : sockaddr_in) (w : world),
    sin_family t <> AF_INET ->
    let refused (res : Z * world) :=
      fst res = -1
      /\ (exists evs, trace (snd res) = trace w ++ Send fd [x05; x01; x00] :: evs
                      /\ count is_send evs = 0%nat)
      /\ (handshake_accepted E w = true ->
          trace (snd res)
          = trace w ++ [Send fd [x05; x01; x00]; Recv fd 2; Stderr OnlyIPv4])
    in
    refused (One.perform_socks5_negotiation E fd t w)
    /\ refused (InterceptOnly.perform_socks5_negotiation E fd t w).
Proof.
  intros E fd t w Hfam refused. subst refused. cbv beta.
  rewrite one_negotiation_same.
  assert (Hne : negb (sin_family t =? AF_INET) = true).
  { apply negb_true_iff. apply Z.eqb_neq. exact Hfam. }
  assert (H : let res := InterceptOnly.perform_socks5_negotiation E fd t w in
              fst res = -1
              /\ (exists evs,
                     trace (snd res)
                     = trace w ++ Send fd [x05; x01; x00] :: evs
                     /\ count is_send evs = 0%nat)
              /\ (handshake_accepted E w = true ->
                  trace (snd res)
                  = trace w ++ [Send fd [x05; x01; x00]; Recv fd 2;
                                Stderr OnlyIPv4])).
  { cbv zeta. rewrite negotiation_split_io, handshake_run. cbv zeta.
    destruct (send_out E (n_send w)) as [v|e] eqn:Hs.
    - destruct (recv_out E (n_recv w)) as [e|d] eqn:Hr.
      + assert (Hacc : handshake_accepted E w = false).
        { unfold handshake_accepted. rewrite Hs, Hr. reflexivity. }
        rewrite Hacc. split; [reflexivity|]. split; [|discriminate].
        eexists. split; [world_fields; reflexivity|reflexivity].
      + destruct (handshake_accepted E w).
        * unfold InterceptOnly.connect_request. rewrite Hne.
          unfold bind, fprintf_stderr, ret.
          split; [reflexivity|]. split.
          { eexists. split; [world_fields; reflexivity|reflexivity]. }
          { intros _. world_fields. reflexivity. }
        * split; [reflexivity|]. split; [|discriminate].
          eexists. split; [world_fields; reflexivity|reflexivity].
    - assert (Hacc : handshake_accepted E w = false).
      { unfold handshake_accepted. rewrite Hs. reflexivity. }
      rewrite Hacc. split; [reflexivity|]. split; [|discriminate].
      eexists. split; [world_fields; reflexivity|reflexivity]. }
  split; exact H.
Qed.

Lemma negotiation_refuses_other_families_witness :
  sin_family unix_socket_address <> AF_INET
  /\ fst (InterceptOnly.perform_socks5_negotiation
            scenario_A 3 unix_socket_address started) = -1
  /\ (exists evs,
         trace (snd (InterceptOnly.perform_socks5_negotiation
                       scenario_A 3 unix_socket_address started))
         = trace started ++ Send 3 [x05; x01; x00] :: evs
         /\ count is_send evs = 0%nat)
  /\ (handshake_accepted scenario_A started = true ->
      trace (snd (InterceptOnly.perform_socks5_negotiation
                    scenario_A 3 unix_socket_address started))
      = trace started
        ++ [Send 3 [x05; x01; x00]; Recv 3 2; Stderr OnlyIPv4]).
Proof.
  assert (H : sin_family unix_socket_address <> AF_INET) by discriminate.
  split; [exact H|].
  apply (negotiation_refuses_other_families
           scenario_A 3 unix_socket_address started H).
Defined.

(** ** The bytes of the literal request *)

(** X10.  For every IPv4 target the request of
    [perform_socks5_negotiation] is ten bytes: 05 01 00 01, the four bytes
    of [sin_addr] and the two bytes of [sin_port], both copied in the order
    they have in memory (the network order the application put them in).
    Two targets that differ in address or port give different requests. *)
Theorem literal_request_layout :
  forall (E : env) (fd : Z) (a0 a1 a2 a3 p0 p1 : byte) (w : world),
    handshake_accepted E w = true ->
    let t := mkSockaddr AF_INET (p0, p1) (a0, a1, a2, a3) in
    let sends (res : Z * world) :=
      exists evs,
        trace (snd res)
        = trace w ++ Send fd [x05; x01; x00] :: Recv fd 2
                  :: Send fd [x05; x01; x00; x01; a0; a1; a2; a3; p0; p1]
                  :: evs in
    sends (One.perform_socks5_negotiation E fd t w)
    /\ sends (InterceptOnly.perform_socks5_negotiation E fd t w)
    /\ forall t1 t2 : sockaddr_in,
        literal_request t1 = literal_request t2 ->
        sin_addr t1 = sin_addr t2 /\ sin_port t1 = sin_port t2.
Proof.
  intros E fd a0 a1 a2 a3 p0 p1 w Hacc t sends. subst sends. cbv beta.
  rewrite one_negotiation_same.
  assert (H : exists evs,
             trace (snd (InterceptOnly.perform_socks5_negotiation E fd t w))
             = trace w ++ Send fd [x05; x01; x00] :: Recv fd 2
                       :: Send fd [x05; x01; x00; x01; a0; a1; a2; a3; p0; p1]
                       :: evs).
  { rewrite (negotiation_run_io E fd t w eq_refl). cbv zeta.
    destruct (handshake_accepted_inv E w Hacc) as [v [d [Hs Hr]]].
    rewrite Hs, Hr, Hacc.
    destruct (send_out E (S (n_send w))) as [v2|e2].
    - destruct (recv_out E (S (n_recv w))) as [e3|d3];
        [|destruct (Byte.eqb (tested_byte E w) x00)];
        eexists; world_fields; reflexivity.
    - eexists; world_fields; reflexivity. }
  split; [exact H|]. split; [exact H|].
  intros [f1 [q0 q1] [[[b0 b1] b2] b3]] [f2 [r0 r1] [[[c0 c1] c2] c3]] Heq.
  cbn in Heq. injection Heq as -> -> -> -> -> ->. split; reflexivity.
Qed.

Lemma literal_request_layout_witness :
  handshake_accepted scenario_A started = true
  /\ exists evs,
      trace (snd (InterceptOnly.perform_socks5_negotiation
                    scenario_A 3
                    (mkSockaddr AF_INET (x1f, x90) (xc0, xa8, x00, x01))
                    started))
      = trace started
        ++ Send 3 [x05; x01; x00] :: Recv 3 2
        :: Send 3 [x05; x01; x00; x01; xc0; xa8; x00; x01; x1f; x90]
        :: evs.
Proof.
  split; [reflexivity|].
  apply (literal_request_layout scenario_A 3 xc0 xa8 x00 x01 x1f x90 started).
  reflexivity.
Defined.

(** ** The request of the name form, as [connect] builds it *)

Lemma Z_of_byte_range (b : byte) : 0 <= Z_of_byte b < 256.
Proof.
  unfold Z_of_byte. pose proof (Byte.to_N_bounded b). lia.
Qed.

Lemma byte_of_Z_of_byte (b : byte) : byte_of_Z (Z_of_byte b) = b.
Proof.
  apply Z_of_byte_inj. apply Z_of_byte_of_Z. apply Z_of_byte_range.
Qed.

Lemma htons_ntohs (p : net16) : htons (ntohs p) = p.
Proof.
  destruct p as [hi lo]. unfold htons, ntohs. cbn [fst snd].
  pose proof (Z_of_byte_range hi) as Hh.
  pose proof (Z_of_byte_range lo) as Hl.
  rewrite (Z.mod_small (256 * Z_of_byte hi + Z_of_byte lo) 65536) by lia.
  replace ((256 * Z_of_byte hi + Z_of_byte lo) / 256) with (Z_of_byte hi).
  2:{ symmetry. rewrite Z.mul_comm. rewrite Z.div_add_l by lia.
      rewrite Z.div_small by lia. lia. }
  replace ((256 * Z_of_byte hi + Z_of_byte lo) mod 256) with (Z_of_byte lo).
  2:{ symmetry. rewrite Z.add_comm, Z.mul_comm. rewrite Z.mod_add by lia.
      apply Z.mod_small. lia. }
  rewrite !byte_of_Z_of_byte. reflexivity.
Qed.

Lemma inet_ntop4_plain_text (a : in_addr) :
  exists text, inet_ntop4 a NI_MAXHOST = Some text
               /\ strlen text = length text
               /\ (7 <= length text <= 15)%nat.
Proof.
  destruct a as [[[a0 a1] a2] a3].
  unfold inet_ntop4.
  set (text := dec_octet a0 ++ dot :: dec_octet a1 ++ dot :: dec_octet a2
                         ++ dot :: dec_octet a3).
  destruct (dec_octet_text a0) as [_ [L0 S0]].
  destruct (dec_octet_text a1) as [_ [L1 S1]].
  destruct (dec_octet_text a2) as [_ [L2 S2]].
  destruct (dec_octet_text a3) as [E3 [L3 _]].
  assert (Hlen : length text
                 = (length (dec_octet a0) + 1 + length (dec_octet a1) + 1
                    + length (dec_octet a2) + 1 + length (dec_octet a3))%nat).
  { unfold text. repeat (rewrite length_app; cbn [length]). lia. }
  assert (Hstr : strlen text = length text).
  { rewrite Hlen. unfold text.
    rewrite S0. cbn [strlen]. change (Byte.eqb dot x00) with false. cbv iota.
    rewrite S1. cbn [strlen]. change (Byte.eqb dot x00) with false. cbv iota.
    rewrite S2. cbn [strlen]. change (Byte.eqb dot x00) with false. cbv iota.
    rewrite E3. lia. }
  exists text. split; [|split].
  - destruct (Nat.ltb_spec (length text) NI_MAXHOST) as [_|H];
      [reflexivity|]. unfold NI_MAXHOST in H. lia.
  - exact Hstr.
  - rewrite Hlen. lia.
Qed.

Lemma name_request_of_text (text : list byte) (p : net16) :
  strlen text = length text ->
  name_request text (ntohs p)
  = [x05; x01; x00; x03; byte_of_Z (Z.of_nat (length text))]
    ++ text ++ [fst p; snd p].
Proof.
  intros Hstr. unfold name_request.
  rewrite Hstr, firstn_all, htons_ntohs. reflexivity.
Qed.

(** X11.  For an IPv4 destination, once the proxy is reached and the
    handshake accepted, [connect] of [ConnectWithDNSInterception.c] sends a
    request of the name form whose name is the dotted decimal text of the
    destination address, 7 to 15 bytes long, with its length in one byte
    before it, and whose port is the two bytes of [sin_port] as the
    application gave them: the way through [ntohs] and [htons] changes
    nothing. *)
Theorem dns_connect_sends_address_text :
  forall (E : env) (fd : Z) (addr : sockaddr_in) (len : Z) (w : world) (v : N),
    sin_family addr = AF_INET ->
    available E w = true ->
    connect_out E (n_connect w) = SysOk v ->
    handshake_accepted E w = true ->
    exists text,
      inet_ntop4 (sin_addr addr) NI_MAXHOST = Some text
      /\ (7 <= length text <= 15)%nat
      /\ In (Send fd ([x05; x01; x00; x03;
                       byte_of_Z (Z.of_nat (length text))]
                      ++ text
                      ++ [fst (sin_port addr); snd (sin_port addr)]))
            (trace (snd (DnsIntercept.connect E fd addr len w))).
Proof.
  intros E fd addr len w v Hfam Hav Hc Hacc.
  destruct (inet_ntop4_plain_text (sin_addr addr))
    as [text [Htext [Hstr Hlen]]].
  exists text. split; [exact Htext|]. split; [exact Hlen|].
  rewrite <- (name_request_of_text text (sin_port addr) Hstr).
  destruct (resolved_dns_fields E w Hav) as [_ [Hs Hr]].
  assert (Hname : hostname_accepted text = true).
  { unfold hostname_accepted. rewrite Hstr.
    destruct (Nat.eqb_spec (length text) 0); [lia|].
    destruct (Nat.ltb_spec 248 (length text)); [lia|]. reflexivity. }
  pose proof (negotiation_stops_dns
                E fd text (ntohs (sin_port addr))
                (proxy_called fd (resolved_dns E w)) Hname) as Hstop.
  pose proof (reply_reached_dns
                E fd text (ntohs (sin_port addr))
                (proxy_called fd (resolved_dns E w)) Hname) as Hreach.
  cbv zeta in Hstop, Hreach.
  rewrite (handshake_accepted_same E (proxy_called fd (resolved_dns E w)) w
                                   Hs Hr) in Hstop, Hreach.
  change (n_send (proxy_called fd (resolved_dns E w)))
    with (n_send (resolved_dns E w)) in Hstop, Hreach.
  rewrite Hs in Hstop, Hreach.
  rewrite (connect_run_dns E fd addr len w Hav). cbv zeta.
  rewrite Hfam. change (negb (AF_INET =? AF_INET)) with false. cbv iota.
  rewrite Hc, Htext.
  set (res := DnsIntercept.perform_socks5_domain_negotiation
                E fd text (ntohs (sin_port addr))
                (proxy_called fd (resolved_dns E w))) in *.
  assert (Hin : In (Send fd (name_request text (ntohs (sin_port addr))))
                   (trace (snd res))
                /\ (fst res = 0 \/ fst res = -1)).
  { destruct (send_out E (S (n_send w))) as [v2|e2] eqn:Hs2.
    - destruct (Hreach Hacc eq_refl) as [Hres Htr].
      split.
      + rewrite Htr. apply in_or_app. right. apply in_or_app. left.
        cbn. auto.
      + destruct (Byte.eqb _ x00) in Hres; auto.
    - destruct Hstop as [_ [_ Hstop]].
      destruct (Hstop Hacc e2 eq_refl) as [Hres [_ Htr]].
      split; [|auto].
      rewrite Htr. apply in_or_app. right. cbn. auto. }
  destruct Hin as [Hin [H0 | H1]].
  - rewrite (conclude_success fd res H0). exact Hin.
  - rewrite (conclude_failure fd res H1). cbn [snd].
    autorewrite with world. apply in_or_app. left. exact Hin.
Qed.

Lemma dns_connect_sends_address_text_witness :
  handshake_accepted scenario_A started = true
  /\ exists text,
      inet_ntop4 (sin_addr address_93_184_216_34_80) NI_MAXHOST = Some text
      /\ (7 <= length text <= 15)%nat
      /\ In (Send 3 ([x05; x01; x00; x03;
                      byte_of_Z (Z.of_nat (length text))]
                     ++ text
                     ++ [fst (sin_port address_93_184_216_34_80);
                         snd (sin_port address_93_184_216_34_80)]))
            (trace (snd (DnsIntercept.connect
                           scenario_A 3 address_93_184_216_34_80 16 started))).
Proof.
  split; [reflexivity|].
  apply (dns_connect_sends_address_text
           scenario_A 3 address_93_184_216_34_80 16 started 0%N);
    reflexivity.
Defined.

(** ** The request of the name form stays inside the array *)

Lemma length_store (buf : list byte) (i : nat) (v : byte) :
  (i < length buf)%nat -> length (store buf i v) = length buf.
Proof.
  intros H. unfold store.
  rewrite length_app, firstn_length_le by lia.
  cbn [length]. rewrite length_skipn. lia.
Qed.

Lemma length_memcpy (buf : list byte) (off : nat) (src : list byte)
      (n : nat) :
  (off + n <= length buf)%nat -> (n <= length src)%nat ->
  length (memcpy buf off src n) = length buf.
Proof.
  intros H Hn. unfold memcpy.
  rewrite !length_app, !firstn_length_le, length_skipn by lia. lia.
Qed.

Lemma skipn_memcpy (buf : list byte) (off : nat) (src : list byte)
      (n k : nat) :
  (off + n <= length buf)%nat -> (n <= length src)%nat ->
  (off + n <= k)%nat ->
  skipn k (memcpy buf off src n) = skipn k buf.
Proof.
  intros H Hn Hk. unfold memcpy.
  rewrite app_assoc.
  rewrite skipn_app.
  rewrite length_app, !firstn_length_le by lia.
  rewrite (skipn_all2 (firstn off buf ++ firstn n src)).
  2:{ rewrite length_app, !firstn_length_le by lia. exact Hk. }
  cbn [app]. rewrite skipn_skipn. f_equal. lia.
Qed.

Lemma skipn_store (buf : list byte) (i : nat) (v : byte) (k : nat) :
  (i < length buf)%nat -> (i < k)%nat ->
  skipn k (store buf i v) = skipn k buf.
Proof.
  intros H Hk. unfold store.
  change (v :: skipn (S i) buf) with ([v] ++ skipn (S i) buf).
  rewrite app_assoc, skipn_app.
  rewrite length_app, firstn_length_le by lia. cbn [length].
  rewrite (skipn_all2 (firstn i buf ++ [v])).
  2:{ rewrite length_app, firstn_length_le by lia. cbn [length]. lia. }
  cbn [app]. rewrite skipn_skipn. f_equal. lia.
Qed.

(** X12.  The length test of [perform_socks5_domain_negotiation] keeps the
    request inside [buffer[256]].  For a name that passes it, the request
    takes 5 + length + 2 bytes, at most 255; every byte written lands
    inside the array, whose bytes after the request are left as they were;
    and what is sent is the first 5 + length + 2 bytes of the array, the
    request of the name form. *)
Theorem domain_request_in_bounds :
  forall (buf hostname : list byte) (port : Z),
    length buf = 256%nat ->
    hostname_accepted hostname = true ->
    let request_len := (5 + strlen hostname + 2)%nat in
    (request_len <= 255)%nat
    /\ length (domain_request_buffer buf hostname port) = 256%nat
    /\ skipn request_len (domain_request_buffer buf hostname port)
       = skipn request_len buf
    /\ firstn request_len (domain_request_buffer buf hostname port)
       = name_request hostname port
    /\ forall (E : env) (fd : Z) (w : world),
        In (Send fd (firstn request_len
                            (domain_request_buffer buf hostname port)))
           (trace (snd (DnsIntercept.domain_connect_request
                          E fd hostname port buf w))).
Proof.
  intros buf hostname port Hbuf Hname request_len. subst request_len.
  assert (Hlen : (1 <= strlen hostname <= 248)%nat).
  { unfold hostname_accepted in Hname. apply negb_true_iff in Hname.
    apply orb_false_iff in Hname. destruct Hname as [H0 H1].
    apply Nat.eqb_neq in H0. apply Nat.ltb_ge in H1. lia. }
  pose proof (strlen_le_length hostname) as Hsrc.
  assert (Hfirst : firstn (5 + strlen hostname + 2)
                          (domain_request_buffer buf hostname port)
                   = name_request hostname port).
  { destruct (name_request_built hostname port buf) as [tail [Hb Hl]];
      [lia|].
    unfold domain_request_buffer, SOCKS_VERSION, SOCKS_CMD_CONNECT,
      SOCKS_ATYP_DOMAINNAME.
    cbv zeta in Hb. rewrite Hb.
    apply firstn_exact. symmetry. exact Hl. }
  split; [lia|].
  unfold domain_request_buffer.
  set (b1 := store buf 0 SOCKS_VERSION).
  set (b2 := store b1 1 SOCKS_CMD_CONNECT).
  set (b3 := store b2 2 x00).
  set (b4 := store b3 3 SOCKS_ATYP_DOMAINNAME).
  set (b5 := store b4 4 (byte_of_Z (Z.of_nat (strlen hostname)))).
  set (b6 := memcpy b5 5 hostname (strlen hostname)).
  assert (L1 : length b1 = 256%nat)
    by (unfold b1; rewrite length_store; lia).
  assert (L2 : length b2 = 256%nat)
    by (unfold b2; rewrite length_store; lia).
  assert (L3 : length b3 = 256%nat)
    by (unfold b3; rewrite length_store; lia).
  assert (L4 : length b4 = 256%nat)
    by (unfold b4; rewrite length_store; lia).
  assert (L5 : length b5 = 256%nat)
    by (unfold b5; rewrite length_store; lia).
  assert (L6 : length b6 = 256%nat)
    by (unfold b6; rewrite length_memcpy; lia).
  split; [|split; [|split]].
  - rewrite length_memcpy; cbn [net16_bytes length]; lia.
  - rewrite skipn_memcpy by (cbn [net16_bytes length]; lia).
    unfold b6. rewrite skipn_memcpy by lia.
    unfold b5. rewrite skipn_store by lia.
    unfold b4. rewrite skipn_store by lia.
    unfold b3. rewrite skipn_store by lia.
    unfold b2. rewrite skipn_store by lia.
    unfold b1. rewrite skipn_store by lia.
    reflexivity.
  - exact Hfirst.
  - intros E fd w.
    fold b1 b2 b3 b4 b5 b6 in Hfirst.
    change (memcpy b6 (5 + strlen hostname)
                   (net16_bytes (htons port)) 2)
      with (domain_request_buffer buf hostname port).
    rewrite Hfirst.
    rewrite (domain_connect_request_run E fd hostname port buf w) by lia.
    unfold hostname_accepted in Hname. apply negb_true_iff in Hname.
    rewrite Hname. cbv zeta.
    destruct (send_out E (n_send w)) as [v|e].
    + destruct (recv_out E (n_recv w)) as [e|d];
        [|destruct (Byte.eqb _ x00)];
        world_fields; apply in_or_app; right; cbn; auto.
    + world_fields. apply in_or_app. right. cbn. auto.
Qed.

Lemma domain_request_in_bounds_witness :
  length (auto_array scenario_A 256) = 256%nat
  /\ (5 + strlen example_com + 2 <= 255)%nat
  /\ length (domain_request_buffer (auto_array scenario_A 256)
                                   example_com 80) = 256%nat.
Proof.
  split; [reflexivity|].
  destruct (domain_request_in_bounds
              (auto_array scenario_A 256) example_com 80 eq_refl eq_refl)
    as [H1 [H2 _]].
  split; [exact H1|exact H2].
Defined.
